(** * Vegetable order app: the HTTP layer of [src/app.js]

    The program is an Express application with seven routes over three
    Mongoose models.  Its own code is the route handlers, the three schema
    declarations and the start-up connection routine; everything else is
    library behaviour (Mongoose 5.13 with the 1.x [bson] driver types).

    The embedding keeps the two apart:

    - [Module Mongoose] is a reference model of the part of the library the
      handlers call: casting a plain object against a schema when a document
      is constructed, [save] and [findById], in strict mode with the default
      options (minimize, versionKey, automatic [_id] on sub-documents).
    - The handlers, the schemas and [connectToDatabase] are translated from
      the source, one definition per source declaration, under the source's
      names.

    A JSON number is a double, carried as a primitive [float]; the program
    never computes with one.  A string stands for a JavaScript string
    character by character, each character a code unit below 256.  Two
    JavaScript built-ins the cast rules go through ([Number(s)] and
    [n.toString()]) are not re-implemented: they are the fields of the class
    [NodeRuntime].  The wording of the errors the library raises is not
    modelled either: an error is a value of [LibraryError], and its message
    is whatever the class [ErrorText] renders for it.  Two corners of the
    cast are left open in the class [CastCorners].  Every statement holds
    for any implementation of the three classes.

    The payload of a response is the value the handler hands to
    [res.json]. *)

From Stdlib Require Import ZArith String Ascii List Bool Lia DecimalString.
From Stdlib Require Import Floats.
From stdpp Require Import base option list gmap strings.

Local Open Scope string_scope.
Local Open Scope list_scope.
Local Open Scope nat_scope.
#[local] Set Warnings "-register-all".

(** ** JSON values *)

Inductive json : Type :=
| JNull
| JBool (b : bool)
| JNum (n : float)
| JStr (s : string)
| JArr (items : list json)
| JObj (fields : list (string * json)).
Arguments JNum n%_float.

(** First binding of a key, as a property read on an object literal. *)
Fixpoint field {A : Type} (k : string) (l : list (string * A)) : option A :=
  match l with
  | [] => None
  | (k', v) :: l' => if String.eqb k k' then Some v else field k l'
  end.

(** [v.k] for a property name [k] that no prototype defines: [None] is
    JavaScript's [undefined]. *)
Definition prop (k : string) (v : json) : option json :=
  match v with
  | JObj fields => field k fields
  | _ => None
  end.





(** JavaScript truthiness of a JSON value ([!v] is its negation). *)
Definition truthy (v : json) : bool :=
  match v with
  | JNull => false
  | JBool b => b
  | JNum n => negb (PrimFloat.eqb n 0 || PrimFloat.is_nan n)
  | JStr s => negb (String.eqb s "")
  | JArr _ | JObj _ => true
  end.

(** The numbers a JSON text carries and gives back unchanged: the finite
    doubles other than negative zero ([JSON.stringify] prints [NaN] and the
    infinities as [null], and negative zero as [0]). *)
Definition json_number (n : float) : bool :=
  PrimFloat.is_finite n && negb (PrimFloat.is_zero n && PrimFloat.get_sign n).

(** ** The JavaScript built-ins the library relies on *)

Class NodeRuntime : Type := {
  (** [Number(s)] on a string; [None] stands for [NaN]. *)
  Number_of_string : string -> option float;
  (** [n.toString()] on a number. *)
  String_of_number : float -> string
}.

Fixpoint join (sep : string) (l : list string) : string :=
  match l with
  | [] => ""
  | [s] => s
  | s :: l' => s +:+ sep +:+ join sep l'
  end.

(** ** Object identifiers

    An [ObjectId] is twelve bytes and prints as 24 lower-case hexadecimal
    digits.  A string is accepted as an identifier when it is 24
    hexadecimal digits in either case, or when it is any twelve characters,
    which are then taken as the twelve bytes. *)

Definition is_lower_hex (a : ascii) : bool :=
  let n := nat_of_ascii a in
  ((48 <=? n)%nat && (n <=? 57)%nat) || ((97 <=? n)%nat && (n <=? 102)%nat).

Definition to_lower (a : ascii) : ascii :=
  let n := nat_of_ascii a in
  if (65 <=? n)%nat && (n <=? 90)%nat then ascii_of_nat (n + 32)%nat else a.

Fixpoint lowercase (s : string) : string :=
  match s with
  | EmptyString => EmptyString
  | String a s' => String (to_lower a) (lowercase s')
  end.

Fixpoint all_lower_hex (s : string) : bool :=
  match s with
  | EmptyString => true
  | String a s' => is_lower_hex a && all_lower_hex s'
  end.

Definition is_oid_hex (s : string) : bool :=
  (String.length s =? 24)%nat && all_lower_hex s.

Record ObjectId : Type := mkObjectId {
  oid_hex : string;
  oid_valid : is_oid_hex oid_hex = true
}.

Definition hex_digit (n : nat) : ascii :=
  ascii_of_nat (if (n <? 10)%nat then 48 + n else 87 + n)%nat.

Definition hex_of_char (a : ascii) : string :=
  let n := nat_of_ascii a in
  String (hex_digit (n / 16)) (String (hex_digit (n mod 16)) EmptyString).

Fixpoint hex_of_chars (s : string) : string :=
  match s with
  | EmptyString => EmptyString
  | String a s' => hex_of_char a +:+ hex_of_chars s'
  end.

(** The cast applied to a string given as an identifier: the canonical hex
    form of the identifier, or [None] when the string is not one. *)
Definition castObjectId (s : string) : option string :=
  let h := lowercase s in
  if is_oid_hex h then Some h
  else if (String.length s =? 12)%nat then Some (hex_of_chars s)
  else None.

Module Mongoose.

(** ** Schemas *)

Inductive SchemaType : Type :=
| SString
| SNumber
| SNested (fields : list (string * SchemaType))
| SDocArray (fields : list (string * SchemaType)).

Record CastError : Type := mkCastError {
  ce_kind : string;
  ce_value : json;
  ce_path : string
}.

Definition CastOut : Type := (option json * list CastError)%type.

Definition join_path (path k : string) : string :=
  if String.eqb path "" then k else path +:+ "." +:+ k.

(** The value a path takes when nothing is assigned to it: arrays default
    to the empty array, every other path stays unset. *)
Definition default_of (t : SchemaType) : option json :=
  match t with
  | SDocArray _ => Some (JArr [])
  | _ => None
  end.

(** An object with no own property is dropped when the document is
    serialised (the [minimize] schema option). *)
Definition minimize (fields : list (string * json)) : option json :=
  match fields with
  | [] => None
  | _ => Some (JObj fields)
  end.

(** ** Documents, models and the store *)

(** What one request gets from outside the program: the identifier the
    driver generates for the new document, the identifiers it generates for
    the elements of a document array, and whether the driver fails the
    storage call of this request (with which error text). *)
Record Env : Type := mkEnv {
  new_id : ObjectId;
  sub_id : nat -> ObjectId;
  fault : option string
}.

(** The database: collection name to collection, a collection being a map
    from the hex form of [_id] to the stored document. *)
Abbreviation Db := (gmap string (gmap string json)).

Definition collection (c : string) (db : Db) : gmap string json :=
  default ∅ (db !! c).

Record Model : Type := mkModel {
  modelName : string;
  collectionName : string;
  schema : list (string * SchemaType)
}.

(** [mongoose.model(name, schema)]: the collection is the lower-cased,
    pluralised model name. *)
Definition model (name : string) (sch : list (string * SchemaType)) : Model :=
  {| modelName := name;
     collectionName := lowercase name +:+ "s";
     schema := sch |}.

(** A document under construction: its identifier, the paths that were
    set, and the cast errors recorded while setting them. *)
Record Document : Type := mkDocument {
  doc_id : ObjectId;
  doc_fields : list (string * json);
  doc_errors : list CastError
}.

Inductive Result (A : Type) : Type :=
| Ok (a : A)
| Throw (message : string).
Arguments Ok {A} a.
Arguments Throw {A} message.

(** An error the library raises: a document that fails validation, with
    the cast errors recorded on it; an identifier a query cannot cast; an
    insert under an identifier that is taken. *)
Inductive LibraryError : Type :=
| ValidationError (modelName : string) (errors : list CastError)
| IdCastError (modelName : string) (id : string)
| DuplicateKey (collectionName : string) (id : string).

(** The [message] of a library error. *)
Class ErrorText : Type := {
  message_of : LibraryError -> string
}.

(** Two corners of the cast that a request body can reach are left open:
    a nested path given a value that is neither null nor an object, and a
    document array given an element that is itself an array.  Neither
    value is stored; whether the library passes it over or records cast
    errors for it (given the path and the value) is a field of the class. *)
Class CastCorners : Type := {
  nested_scalar_errors : string -> json -> list CastError;
  array_element_errors : string -> json -> list CastError
}.

Section Casting.
Context {runtime : NodeRuntime} {text : ErrorText} {corners : CastCorners}.

(** [SchemaString]: null passes, strings are kept, numbers and booleans
    are converted with [toString], an object stands for its [_id] when that
    is a non-empty string, arrays and other objects are refused. *)
Definition castString (path : string) (v : json) : CastOut :=
  match v with
  | JNull => (Some JNull, [])
  | JStr s => (Some (JStr s), [])
  | JNum n => (Some (JStr (String_of_number n)), [])
  | JBool b => (Some (JStr (if b then "true" else "false")), [])
  | JObj o =>
      match field "_id" o with
      | Some (JStr s) =>
          if String.eqb s "" then (None, [mkCastError "string" v path])
          else (Some (JStr s), [])
      | _ => (None, [mkCastError "string" v path])
      end
  | JArr _ => (None, [mkCastError "string" v path])
  end.

(** [SchemaNumber]: an object that has an [_id] stands for it; then null
    passes, the empty string becomes null, strings and booleans go through
    [Number], [NaN], arrays and objects are refused. *)
Definition castNumber (path : string) (v : json) : CastOut :=
  let val :=
    match v with
    | JObj o => match field "_id" o with Some w => w | None => v end
    | _ => v
    end in
  let refused : CastOut := (None, [mkCastError "Number" val path]) in
  let number (n : float) : CastOut :=
    if PrimFloat.is_nan n then refused else (Some (JNum n), []) in
  match val with
  | JNull => (Some JNull, [])
  | JNum n => number n
  | JStr s =>
      if String.eqb s "" then (Some JNull, [])
      else match Number_of_string s with
           | Some n => number n
           | None => refused
           end
  | JBool b => (Some (JNum (if b then 1 else 0)), [])
  | JArr _ | JObj _ => refused
  end.

(** [v.toString()] for a JSON value. *)
Fixpoint toString (v : json) : string :=
  match v with
  | JNull => "null"
  | JBool b => if b then "true" else "false"
  | JNum n => String_of_number n
  | JStr s => s
  | JArr l =>
      join "," (map (fun el => match el with
                               | JNull => ""
                               | _ => toString el
                               end) l)
  | JObj _ => "[object Object]"
  end.

(** [SchemaObjectId], the type of a sub-document's [_id]: null passes; an
    object that has a truthy [_id] stands for it; the value's string form
    must then be an identifier. *)
Definition castId (path : string) (v : json) : CastOut :=
  match v with
  | JNull => (Some JNull, [])
  | _ =>
      let s :=
        match v with
        | JObj o =>
            match field "_id" o with
            | Some w => if truthy w then toString w else toString v
            | None => toString v
            end
        | _ => toString v
        end in
      match castObjectId s with
      | Some h => (Some (JStr h), [])
      | None => (None, [mkCastError "ObjectId" v path])
      end
  end.

(** Assigning the declared keys of a schema from an object: keys the
    schema does not declare are never read (strict mode), a key the object
    does not have takes its default. *)
Definition cast_fields_with
    (rec : SchemaType -> string -> json -> CastOut)
    (path : string) (o : list (string * json))
  : list (string * SchemaType) -> list (string * json) * list CastError :=
  fix go (fs : list (string * SchemaType)) :=
    match fs with
    | [] => ([], [])
    | (k, t) :: fs' =>
        let '(r, e) :=
          match field k o with
          | Some v => rec t (join_path path k) v
          | None => (default_of t, [])
          end in
        let '(rs, es) := go fs' in
        (match r with Some x => (k, x) :: rs | None => rs end, e ++ es)
    end.

(** The [_id] of a sub-document: the one the element gives, cast, or a
    generated one when it gives none. *)
Definition element_id (sub : ObjectId) (path : string)
    (o : list (string * json)) : CastOut :=
  match field "_id" o with
  | Some w => castId (join_path path "_id") w
  | None => (Some (JStr (oid_hex sub)), [])
  end.

(** The decimal form of an array index. *)
Definition index_string (i : nat) : string :=
  NilZero.string_of_uint (Nat.to_uint i).

(** Casting the elements of a document array: null is left as it is, an
    object becomes a sub-document (its [_id], then its declared keys), an
    array, where it is not refused, becomes a sub-document with no declared
    key, any other element is refused (a truthy one when the array is
    cast, a falsy one when the document is validated). *)
Definition cast_elements_with
    (sub : nat -> ObjectId)
    (fields_of : string -> list (string * json) -> list (string * json) * list CastError)
    (path : string)
  : nat -> list json -> list json * list CastError :=
  fix go (i : nat) (l : list json) :=
    match l with
    | [] => ([], [])
    | v :: l' =>
        let '(r, e) :=
          match v with
          | JNull => (v, [])
          | JObj o =>
              let p := join_path path (index_string i) in
              let '(id, eid) := element_id (sub i) p o in
              let '(fs, es) := fields_of p o in
              (JObj (match id with Some x => ("_id", x) :: fs | None => fs end),
               eid ++ es)
          | JArr _ =>
              (JObj [("_id", JStr (oid_hex (sub i)))],
               array_element_errors path v)
          | _ => (v, [mkCastError "embedded" v path])
          end in
        let '(rs, es) := go (S i) l' in
        (r :: rs, e ++ es)
    end.

(** Casting a value other than [undefined] against a schema type.  A
    nested path keeps null, takes an object key by key and stores no other
    value; a document array keeps null, wraps a value that is not an array
    into a one-element array, and casts the elements. *)
Fixpoint cast (sub : nat -> ObjectId) (t : SchemaType) (path : string)
    (v : json) {struct t} : CastOut :=
  match t with
  | SString => castString path v
  | SNumber => castNumber path v
  | SNested fs =>
      match v with
      | JNull => (Some JNull, [])
      | JObj o =>
          let '(out, errs) := cast_fields_with (cast sub) path o fs in
          (minimize out, errs)
      | _ => (None, nested_scalar_errors path v)
      end
  | SDocArray fs =>
      match v with
      | JNull => (Some JNull, [])
      | _ =>
          let elems := match v with JArr l => l | _ => [v] end in
          let '(out, errs) :=
            cast_elements_with sub
              (fun p o => cast_fields_with (cast sub) p o fs) path 0%nat elems in
          (Some (JArr out), errs)
      end
  end.

Definition cast_fields (sub : nat -> ObjectId) (path : string)
    (o : list (string * json)) (fs : list (string * SchemaType))
  : list (string * json) * list CastError :=
  cast_fields_with (cast sub) path o fs.

(** ** Constructing, saving and finding documents *)

(** [new M(obj)]: [obj] lists the keys of the object literal with their
    values, [None] for [undefined].  A key holding [undefined] is treated
    as a key that is not there. *)
Definition defined (obj : list (string * option json)) : list (string * json) :=
  omap (fun kv => match snd kv with
                  | Some v => Some (fst kv, v)
                  | None => None
                  end) obj.

Definition new_ (M : Model) (obj : list (string * option json)) (env : Env)
  : Document :=
  let '(fields, errs) := cast_fields (sub_id env) "" (defined obj) (schema M) in
  {| doc_id := new_id env; doc_fields := fields; doc_errors := errs |}.

(** The stored form of a saved document. *)
Definition toObject (doc : Document) : json :=
  JObj (("_id", JStr (oid_hex (doc_id doc))) :: doc_fields doc
        ++ [("__v", JNum 0)]).

(** [doc.save()]: validation rejects a document with recorded cast errors
    before anything is sent; otherwise one insert is issued, which the
    driver may fail and which the server refuses for an [_id] that is
    already in the collection. *)
Definition save (M : Model) (doc : Document) (env : Env) (db : Db)
  : Result (Document * Db) :=
  match doc_errors doc with
  | _ :: _ => Throw (message_of (ValidationError (modelName M) (doc_errors doc)))
  | [] =>
      match fault env with
      | Some msg => Throw msg
      | None =>
          let c := collection (collectionName M) db in
          match c !! oid_hex (doc_id doc) with
          | Some _ =>
              Throw (message_of (DuplicateKey (collectionName M)
                                   (oid_hex (doc_id doc))))
          | None =>
              Ok (doc, <[collectionName M :=
                           <[oid_hex (doc_id doc) := toObject doc]> c]> db)
          end
      end
  end.

(** [M.findById(id)]: the identifier is cast first, then one read is
    issued; the result is the stored document or [None] for [null].  The
    document comes back as it is stored: what [save] writes is already in
    cast form, which loading leaves as it is. *)
Definition findById (M : Model) (id : string) (env : Env) (db : Db)
  : Result (option json) :=
  match castObjectId id with
  | None => Throw (message_of (IdCastError (modelName M) id))
  | Some h =>
      match fault env with
      | Some msg => Throw msg
      | None => Ok (collection (collectionName M) db !! h)
      end
  end.

End Casting.

End Mongoose.

Import Mongoose.

(** ** The application: configuration and start-up *)

(** [process.env.MONGO_URL || '...']: an unset or empty variable falls
    back to the in-cluster service address. *)
Definition MONGO_URI (MONGO_URL : option string) : string :=
  match MONGO_URL with
  | Some s =>
      if String.eqb s "" then
        "mongodb://vegetable-app-mongodb-svc:27017/vegetable_order_app"
      else s
  | None => "mongodb://vegetable-app-mongodb-svc:27017/vegetable_order_app"
  end.

Inductive LogLine : Type :=
| MongoDB_connected_successfully
| MongoDB_connection_error (msg : string).

(** A start-up routine as the tree of its effects: each [Await_connect] is
    one call of [mongoose.connect], continued with its outcome ([try] /
    [catch] around the [await]); [Exit] is [process.exit]; [Return] is the
    end of the routine, after which the process keeps running. *)
Inductive Proc : Type :=
| Return
| Exit (code : Z)
| Console (line : LogLine) (k : Proc)
| Await_connect (uri : string) (options : list (string * bool))
    (k : Result unit -> Proc).

Definition connectToDatabase (MONGO_URL : option string) : Proc :=
  Await_connect (MONGO_URI MONGO_URL)
    [("useNewUrlParser", true); ("useUnifiedTopology", true)]
    (fun outcome =>
       match outcome with
       | Ok _ => Console MongoDB_connected_successfully Return
       | Throw message => Console (MongoDB_connection_error message) (Exit 1)
       end).

Inductive Event : Type :=
| EvConnect (uri : string)
| EvConsole (line : LogLine)
| EvExit (code : Z).

(** Running a routine against a driver that answers the [n]-th connection
    attempt with [driver n]: the events in order, and the exit code when the
    process was terminated. *)
Fixpoint run (driver : nat -> Result unit) (attempt : nat) (p : Proc)
  : list Event * option Z :=
  match p with
  | Return => ([], None)
  | Exit code => ([EvExit code], Some code)
  | Console line k =>
      let '(evs, st) := run driver attempt k in (EvConsole line :: evs, st)
  | Await_connect uri _ k =>
      let '(evs, st) := run driver (S attempt) (k (driver attempt)) in
      (EvConnect uri :: evs, st)
  end.

Definition is_connect (e : Event) : bool :=
  match e with
  | EvConnect _ => true
  | _ => false
  end.

Definition connection_attempts (evs : list Event) : nat :=
  length (List.filter is_connect evs).

(** ** Schemas and models *)

Definition addressSchema : list (string * SchemaType) :=
  [("flat_no", SString); ("area", SString); ("city", SString);
   ("state", SString); ("pincode", SString)].

Definition orderSchema : list (string * SchemaType) :=
  [("name", SString);
   ("email", SString);
   ("phone", SString);
   ("address", SNested addressSchema);
   ("vegetables", SNested
      [("brinjalQty", SNumber); ("tomatoQty", SNumber); ("carrotQty", SNumber);
       ("cucumberQty", SNumber); ("onionQty", SNumber); ("chilliQty", SNumber);
       ("spinachQuantity", SNumber); ("coriander", SNumber);
       ("Karvepaku", SNumber); ("pudina", SNumber)]);
   ("totalCost", SNumber)].

Definition Order : Model := model "Order" orderSchema.

Definition lineItemSchema : list (string * SchemaType) :=
  [("name", SString); ("quantity", SNumber); ("totalCost", SNumber)].

Definition cartSchema : list (string * SchemaType) :=
  [("items", SDocArray lineItemSchema);
   ("totalCartCost", SNumber)].

Definition Cart : Model := model "Cart" cartSchema.

Definition checkoutSchema : list (string * SchemaType) :=
  [("customer", SNested
      [("name", SString); ("email", SString); ("phone", SString);
       ("address", SNested addressSchema)]);
   ("cart", SDocArray lineItemSchema);
   ("cartTotal", SNumber)].

Definition Checkout : Model := model "Checkout" checkoutSchema.

(** ** Routes *)

(** What a handler reads of the request: the [:id] route parameter and the
    body the JSON parser produced, an object ([{}] when the request carried
    none). *)
Record Request : Type := mkRequest {
  params_id : string;
  body : list (string * json)
}.

Record Response : Type := mkResponse {
  status : nat;
  payload : json
}.

(** [res.status(code).json(v)] *)
Definition status_json (code : nat) (v : json) : Response :=
  {| status := code; payload := v |}.

Section Routes.
Context {runtime : NodeRuntime} {text : ErrorText} {corners : CastCorners}.

Definition Handler : Type := Request -> Env -> Db -> Response * Db.

Definition get_health : Handler := fun req env db =>
  (status_json 200 (JObj [("status", JStr "OK"); ("service", JStr "vegetable-app")]),
   db).

Definition post_order : Handler := fun req env db =>
  let name := field "name" (body req) in
  let email := field "email" (body req) in
  let phone := field "phone" (body req) in
  let address := field "address" (body req) in
  let vegetables := field "vegetables" (body req) in
  let totalCost := field "totalCost" (body req) in
  let newOrder :=
    new_ Order [("name", name); ("email", email); ("phone", phone);
                ("address", address); ("vegetables", vegetables);
                ("totalCost", totalCost)] env in
  match save Order newOrder env db with
  | Ok (savedOrder, db') =>
      (status_json 201
         (JObj [("message", JStr "Order placed successfully!");
                ("orderId", JStr (oid_hex (doc_id savedOrder)))]), db')
  | Throw message => (status_json 500 (JObj [("error", JStr message)]), db)
  end.

Definition get_order : Handler := fun req env db =>
  match findById Order (params_id req) env db with
  | Ok (Some order) => (status_json 200 order, db)
  | Ok None => (status_json 404 (JObj [("message", JStr "Order not found")]), db)
  | Throw message => (status_json 500 (JObj [("error", JStr message)]), db)
  end.

Definition post_cart : Handler := fun req env db =>
  let items := field "items" (body req) in
  let totalCartCost := field "totalCartCost" (body req) in
  let newCart :=
    new_ Cart [("items", items); ("totalCartCost", totalCartCost)] env in
  match save Cart newCart env db with
  | Ok (savedCart, db') =>
      (status_json 201
         (JObj [("message", JStr "Cart data saved successfully!");
                ("cartId", JStr (oid_hex (doc_id savedCart)))]), db')
  | Throw message => (status_json 500 (JObj [("error", JStr message)]), db)
  end.

Definition get_cart : Handler := fun req env db =>
  match findById Cart (params_id req) env db with
  | Ok (Some cart) => (status_json 200 cart, db)
  | Ok None => (status_json 404 (JObj [("message", JStr "Cart not found")]), db)
  | Throw message => (status_json 500 (JObj [("error", JStr message)]), db)
  end.

Definition post_checkout : Handler := fun req env db =>
  let customer := field "customer" (body req) in
  let cart := field "cart" (body req) in
  let cartTotal := field "cartTotal" (body req) in
  let newCheckout :=
    new_ Checkout [("customer", customer); ("cart", cart);
                   ("cartTotal", cartTotal)] env in
  match save Checkout newCheckout env db with
  | Ok (savedCheckout, db') =>
      (status_json 201
         (JObj [("message", JStr "Checkout successful!");
                ("checkoutId", JStr (oid_hex (doc_id savedCheckout)))]), db')
  | Throw message => (status_json 500 (JObj [("error", JStr message)]), db)
  end.

Definition get_checkout : Handler := fun req env db =>
  match findById Checkout (params_id req) env db with
  | Ok (Some checkout) => (status_json 200 checkout, db)
  | Ok None => (status_json 404 (JObj [("message", JStr "Checkout not found")]), db)
  | Throw message => (status_json 500 (JObj [("error", JStr message)]), db)
  end.

(** The route table. *)
Inductive Route : Type :=
| GET_health
| POST_order | GET_order
| POST_cart | GET_cart
| POST_checkout | GET_checkout.

Definition app (r : Route) : Handler :=
  match r with
  | GET_health => get_health
  | POST_order => post_order
  | GET_order => get_order
  | POST_cart => post_cart
  | GET_cart => get_cart
  | POST_checkout => post_checkout
  | GET_checkout => get_checkout
  end.

End Routes.

(** ** The three entities, for statements that range over them *)

Inductive Entity : Type :=
| OrderE
| CartE
| CheckoutE.

Definition model_of (e : Entity) : Model :=
  match e with
  | OrderE => Order
  | CartE => Cart
  | CheckoutE => Checkout
  end.

(** The names each create handler destructures from the request body. *)
Definition allow_list (e : Entity) : list string :=
  match e with
  | OrderE => ["name"; "email"; "phone"; "address"; "vegetables"; "totalCost"]
  | CartE => ["items"; "totalCartCost"]
  | CheckoutE => ["customer"; "cart"; "cartTotal"]
  end.

(** The key under which a create handler returns the new identifier. *)
Definition id_key (e : Entity) : string :=
  match e with
  | OrderE => "orderId"
  | CartE => "cartId"
  | CheckoutE => "checkoutId"
  end.

(** The object literal a create handler hands to the model constructor:
    every allow-listed name, bound to the body's value or to [undefined]. *)
Definition constructor_arg (e : Entity) (b : list (string * json))
  : list (string * option json) :=
  map (fun k => (k, field k b)) (allow_list e).

(** Two bodies agree on a list of names when they bind each of them to the
    same value, or both leave it out. *)
Definition agree (ks : list string) (b1 b2 : list (string * json)) : Prop :=
  forall k, In k ks -> field k b1 = field k b2.

(** The body cut down to the given names. *)
Definition restrict (ks : list string) (b : list (string * json))
  : list (string * json) :=
  List.filter (fun kv => existsb (String.eqb (fst kv)) ks) b.

(** The confirmation text of each create handler. *)
Definition created_message (e : Entity) : string :=
  match e with
  | OrderE => "Order placed successfully!"
  | CartE => "Cart data saved successfully!"
  | CheckoutE => "Checkout successful!"
  end.

Section Entities.
Context {runtime : NodeRuntime} {text : ErrorText} {corners : CastCorners}.

(** The shape the three create handlers share. *)
Definition create_with (M : Model) (msg key : string)
    (obj : list (string * option json)) (env : Env) (db : Db) : Response * Db :=
  match save M (new_ M obj env) env db with
  | Ok (saved, db') =>
      (status_json 201
         (JObj [("message", JStr msg); (key, JStr (oid_hex (doc_id saved)))]), db')
  | Throw message => (status_json 500 (JObj [("error", JStr message)]), db)
  end.

(** The shape the three read handlers share. *)
Definition get_with (M : Model) (id : string) (env : Env) (db : Db)
  : Response * Db :=
  match findById M id env db with
  | Ok (Some found) => (status_json 200 found, db)
  | Ok None =>
      (status_json 404 (JObj [("message", JStr (modelName M +:+ " not found"))]), db)
  | Throw message => (status_json 500 (JObj [("error", JStr message)]), db)
  end.

Definition create (e : Entity) : Handler :=
  match e with
  | OrderE => post_order
  | CartE => post_cart
  | CheckoutE => post_checkout
  end.

Definition get_by_id (e : Entity) : Handler :=
  match e with
  | OrderE => get_order
  | CartE => get_cart
  | CheckoutE => get_checkout
  end.

End Entities.

(** The collection a route writes to, if any. *)
Definition writes_to (r : Route) : option string :=
  match r with
  | POST_order => Some (collectionName Order)
  | POST_cart => Some (collectionName Cart)
  | POST_checkout => Some (collectionName Checkout)
  | GET_health | GET_order | GET_cart | GET_checkout => None
  end.

(** ** Payloads of the declared shape *)

(** A value has the shape a schema type declares: a string or null at a
    [String] path, a JSON number or null at a [Number] path, an object
    whose declared keys hold values of their shape at a nested path, an
    array of such objects, none of them carrying an [_id] of its own, at a
    document array. *)
Definition conforms_fields_with (rec : SchemaType -> json -> bool)
    (o : list (string * json)) : list (string * SchemaType) -> bool :=
  fix go (fs : list (string * SchemaType)) : bool :=
    match fs with
    | [] => true
    | (k, t) :: fs' =>
        match field k o with
        | Some w => rec t w
        | None => true
        end && go fs'
    end.




(** Well-formed schema declarations: an object literal binds a key once,
    and no declared key collides with the generated [_id] and [__v]. *)
Fixpoint distinct (ks : list string) : bool :=
  match ks with
  | [] => true
  | k :: ks' => negb (existsb (String.eqb k) ks') && distinct ks'
  end.

Fixpoint wf_type (t : SchemaType) : bool :=
  match t with
  | SString | SNumber => true
  | SNested fs | SDocArray fs =>
      distinct ("_id" :: "__v" :: map fst fs)
      && forallb (fun '(_, t') => wf_type t') fs
  end.

(** ** Vocabulary of the statements *)

(** What the cast does with one declared key of an object. *)
Definition cast_key (rec : SchemaType -> string -> json -> CastOut)
    (path : string) (o : list (string * json)) (k : string) (t : SchemaType)
  : CastOut :=
  match field k o with
  | Some v => rec t (join_path path k) v
  | None => (default_of t, [])
  end.

Section Statements.
Context {runtime : NodeRuntime} {text : ErrorText} {corners : CastCorners}.



End Statements.


(** ** A runtime for running the model

    The statements hold for every [NodeRuntime], [ErrorText] and
    [CastCorners]; to evaluate the handlers on concrete requests one of
    each is needed.  The instances here are stand-ins that are right on
    what the examples use and no further.  The runtime reads and prints
    decimal integer literals of magnitude below 2^53, answers [NaN] for
    every other string and prints a placeholder for every other number.
    The error text is the library's for a cast error at a top-level path,
    the value printed the way [util.inspect] prints small flat data. *)

Definition float_of_Z (z : Z) : float :=
  if (z <? 0)%Z then PrimFloat.opp (PrimFloat.of_uint63 (Uint63.of_Z (- z)))
  else PrimFloat.of_uint63 (Uint63.of_Z z).

Definition Z_of_float (f : float) : option Z :=
  match Prim2SF f with
  | S754_zero _ => Some 0%Z
  | S754_finite sign m e =>
      let magnitude :=
        if (0 <=? e)%Z then Some (Z.pos m * 2 ^ e)%Z
        else if (Z.pos m mod 2 ^ (- e) =? 0)%Z then Some (Z.pos m / 2 ^ (- e))%Z
        else None in
      match magnitude with
      | Some z =>
          if (z <? 2 ^ 53)%Z then Some (if sign then (- z)%Z else z) else None
      | None => None
      end
  | _ => None
  end.

Definition print_number (n : float) : string :=
  match Z_of_float n with
  | Some z => NilZero.string_of_int (Z.to_int z)
  | None => "<number>"
  end.

Definition read_number (s : string) : option float :=
  match NilZero.int_of_string s with
  | Some d =>
      let z := Z.of_int d in
      if (Z.abs z <? 2 ^ 53)%Z then Some (float_of_Z z) else None
  | None => None
  end.

#[export] Instance decimal_runtime : NodeRuntime := {|
  Number_of_string := read_number;
  String_of_number := print_number
|}.

(** The double quote character, for assembling error messages. *)
Definition dq : string := String (ascii_of_nat 34%nat) EmptyString.

Fixpoint inspect_json (v : json) : string :=
  match v with
  | JNull => "null"
  | JBool b => if b then "true" else "false"
  | JNum n => print_number n
  | JStr s => "'" +:+ s +:+ "'"
  | JArr l =>
      match l with
      | [] => "[]"
      | _ => "[ " +:+ join ", " (map inspect_json l) +:+ " ]"
      end
  | JObj fs =>
      match fs with
      | [] => "{}"
      | _ => "{ " +:+ join ", " (map (fun '(k, w) => k +:+ ": " +:+ inspect_json w) fs)
             +:+ " }"
      end
  end.

Definition value_type (v : json) : string :=
  match v with
  | JNull => "null"
  | JBool _ => "boolean"
  | JNum _ => "number"
  | JStr _ => "string"
  | JArr _ => "Array"
  | JObj _ => "Object"
  end.

Definition string_value (v : json) : string :=
  match v with
  | JStr s => dq +:+ s +:+ dq
  | _ => dq +:+ inspect_json v +:+ dq
  end.

Definition cast_message (e : CastError) : string :=
  "Cast to " +:+ ce_kind e +:+ " failed for value " +:+ string_value (ce_value e)
  +:+ " (type " +:+ value_type (ce_value e) +:+ ")"
  +:+ " at path " +:+ dq +:+ ce_path e +:+ dq.

Definition sample_message (err : LibraryError) : string :=
  match err with
  | ValidationError name errs =>
      name +:+ " validation failed: "
      +:+ join ", " (map (fun e => ce_path e +:+ ": " +:+ cast_message e) errs)
  | IdCastError name id =>
      cast_message (mkCastError "ObjectId" (JStr id) "_id")
      +:+ " for model " +:+ dq +:+ name +:+ dq
  | DuplicateKey c id =>
      "E11000 duplicate key error collection: " +:+ c
      +:+ " index: _id_ dup key: { _id: ObjectId('" +:+ id +:+ "') }"
  end.

#[export] Instance sample_error_text : ErrorText := {|
  message_of := sample_message
|}.

(** In the examples both open corners of the cast pass the value over. *)
#[export] Instance lenient_corners : CastCorners := {|
  nested_scalar_errors := fun _ _ => [];
  array_element_errors := fun _ _ => []
|}.

(** Sample data for the examples. *)

Definition oid_a : ObjectId :=
  mkObjectId "65f0c2a1b3d4e5f60718293a" eq_refl.

Definition oid_b : ObjectId :=
  mkObjectId "65f0c2a1b3d4e5f60718293b" eq_refl.

Definition env_ok : Env :=
  {| new_id := oid_a; sub_id := fun _ => oid_b; fault := None |}.

Definition env_down : Env :=
  {| new_id := oid_a; sub_id := fun _ => oid_b;
     fault := Some "connect ECONNREFUSED 10.0.0.7:27017" |}.

Definition sample_order : list (string * json) :=
  [("name", JStr "A"); ("email", JStr "a@x.com"); ("phone", JStr "123");
   ("address", JObj [("city", JStr "X")]);
   ("vegetables", JObj [("tomatoQty", JNum 2)]);
   ("totalCost", JNum 40)].

Definition sample_cart : list (string * json) :=
  [("items", JArr [JObj [("name", JStr "tomato"); ("quantity", JNum 2);
                         ("totalCost", JNum 40)]]);
   ("totalCartCost", JNum 40)].

Definition bad_order : list (string * json) :=
  [("totalCost", JObj [("amount", JNum 40)])].

Definition sample_order_with_extras : list (string * json) :=
  ("isAdmin", JBool true) :: sample_order ++ [("discount", JNum 100)].

Definition stored_sample_order : json :=
  JObj [("_id", JStr "65f0c2a1b3d4e5f60718293a");
        ("name", JStr "A"); ("email", JStr "a@x.com"); ("phone", JStr "123");
        ("address", JObj [("city", JStr "X")]);
        ("vegetables", JObj [("tomatoQty", JNum 2)]);
        ("totalCost", JNum 40); ("__v", JNum 0)].

Definition env_ok_b : Env :=
  {| new_id := oid_b; sub_id := fun _ => oid_a; fault := None |}.

(** ** Stored records and sequences of requests *)

(** An object binds declared keys only. *)
Definition declared_only (fs : list (string * SchemaType))
    (o : list (string * json)) : bool :=
  forallb (fun '(k, _) => existsb (String.eqb k) (map fst fs)) o.

(** A sub-document binds [_id] and declared keys only. *)
Definition declared_or_id (fs : list (string * SchemaType))
    (o : list (string * json)) : bool :=
  forallb (fun '(k, _) =>
             String.eqb k "_id" || existsb (String.eqb k) (map fst fs)) o.

(** A value is one a path of a schema type can hold in a stored record: a
    string (number) or null at a [String] ([Number]) path; null or an
    object of declared keys, each of its type, at a nested path; null or an
    array at a document array, each element of which is null or a
    sub-document: an object of [_id] and declared keys, each declared key
    of its type. *)
Fixpoint has_type (t : SchemaType) (v : json) {struct t} : bool :=
  match t, v with
  | SString, (JStr _ | JNull) => true
  | SNumber, (JNum _ | JNull) => true
  | SNested fs, JNull => true
  | SNested fs, JObj o => declared_only fs o && conforms_fields_with has_type o fs
  | SDocArray fs, JNull => true
  | SDocArray fs, JArr l =>
      forallb (fun el =>
        match el with
        | JNull => true
        | JObj o => declared_or_id fs o && conforms_fields_with has_type o fs
        | _ => false
        end) l
  | _, _ => false
  end.

(** A record of a model's collection, stored under [id]: an object that
    binds [_id] to the identifier, [__v] to 0, and besides these only paths
    the schema declares, each to a value of its type. *)
Definition record_ok (M : Model) (id : string) (r : json) : Prop :=
  exists o,
    r = JObj o
    /\ field "_id" o = Some (JStr id)
    /\ field "__v" o = Some (JNum 0)
    /\ forall k v, field k o = Some v ->
         k = "_id" \/ k = "__v"
         \/ exists t, field k (schema M) = Some t /\ has_type t v = true.

(** Every record of the three collections is a record of its model. *)
Definition store_ok (db : Db) : Prop :=
  forall (e : Entity) (id : string) (r : json),
    collection (collectionName (model_of e)) db !! id = Some r ->
    record_ok (model_of e) id r.

(** Whether a route is the create route of an entity. *)
Definition creates (r : Route) (e : Entity) : bool :=
  match r, e with
  | POST_order, OrderE | POST_cart, CartE | POST_checkout, CheckoutE => true
  | _, _ => false
  end.

Section Serving.
Context {runtime : NodeRuntime} {text : ErrorText} {corners : CastCorners}.

(** Whether a create goes through: the constructed document has no cast
    error, the driver does not fail, and the identifier is new. *)
Definition create_accepts (e : Entity) (req : Request) (env : Env) (db : Db)
  : bool :=
  match doc_errors (new_ (model_of e) (constructor_arg e (body req)) env),
        fault env,
        collection (collectionName (model_of e)) db !! oid_hex (new_id env) with
  | [], None, None => true
  | _, _, _ => false
  end.

(** One request as the server sees it: the route it matched, what the
    handler reads of it, and what the driver does during it. *)
Definition Call : Type := (Route * Request * Env)%type.

(** Requests handled one after the other.  A handler touches the store in
    one storage call, so any interleaving of requests acts on the store as
    the sequence of their storage calls. *)
Definition serve (calls : list Call) (db : Db) : Db :=
  fold_left (fun db' '(r, req, env) => snd (app r req env db')) calls db.

End Serving.

(** What the induction over schema types carries for typing: a value that
    casts without error casts to a value of the type. *)
Definition cast_typed `{NodeRuntime} `{ErrorText} `{CastCorners} (sub : nat -> ObjectId)
    (t : SchemaType)
  : Prop :=
  forall path v w,
    wf_type t = true -> cast sub t path v = (Some w, []) -> has_type t w = true.

(** * Properties *)

Section Properties.
Context {runtime : NodeRuntime} {text : ErrorText} {corners : CastCorners}.

(** ** The handlers in their shared shape *)

Lemma create_unfold (e : Entity) (req : Request) (env : Env) (db : Db) :
  create e req env db =
  create_with (model_of e) (created_message e) (id_key e)
    (constructor_arg e (body req)) env db.
Proof. destruct e; reflexivity. Qed.

Lemma get_by_id_unfold (e : Entity) (req : Request) (env : Env) (db : Db) :
  get_by_id e req env db = get_with (model_of e) (params_id req) env db.
Proof. destruct e; reflexivity. Qed.

(** ** Collections *)

Lemma collection_insert_eq (c : string) (m : gmap string json) (db : Db) :
  collection c (<[c := m]> db) = m.
Proof. unfold collection. by rewrite lookup_insert_eq. Qed.

Lemma collection_insert_ne (c c' : string) (m : gmap string json) (db : Db) :
  c <> c' -> collection c' (<[c := m]> db) = collection c' db.
Proof. intros Hne. unfold collection. by rewrite lookup_insert_ne. Qed.

(** ** [save] and [findById] *)

Lemma save_Ok_inv (M : Model) (doc saved : Document) (env : Env) (db db' : Db) :
  save M doc env db = Ok (saved, db') ->
  saved = doc /\ doc_errors doc = [] /\ fault env = None /\
  collection (collectionName M) db !! oid_hex (doc_id doc) = None /\
  db' = <[collectionName M :=
            <[oid_hex (doc_id doc) := toObject doc]>
              (collection (collectionName M) db)]> db.
Proof.
  unfold save. intros Hs.
  destruct (doc_errors doc) eqn:He; [|discriminate].
  destruct (fault env) eqn:Hf; [discriminate|].
  destruct (collection (collectionName M) db !! oid_hex (doc_id doc)) eqn:Hc;
    [discriminate|].
  injection Hs as <- <-. auto.
Qed.

Lemma save_Ok_intro (M : Model) (doc : Document) (env : Env) (db : Db) :
  doc_errors doc = [] -> fault env = None ->
  collection (collectionName M) db !! oid_hex (doc_id doc) = None ->
  save M doc env db =
  Ok (doc, <[collectionName M :=
               <[oid_hex (doc_id doc) := toObject doc]>
                 (collection (collectionName M) db)]> db).
Proof. intros He Hf Hc. unfold save. by rewrite He, Hf, Hc. Qed.

(** A successful [save] keeps every record that was there. *)
Lemma save_preserves (M : Model) (doc saved : Document) (env : Env)
    (db db' : Db) (c id : string) (r : json) :
  save M doc env db = Ok (saved, db') ->
  collection c db !! id = Some r -> collection c db' !! id = Some r.
Proof.
  intros Hs Hr. apply save_Ok_inv in Hs as (_ & _ & _ & Hfresh & ->).
  destruct (decide (collectionName M = c)) as [<-|Hne].
  - rewrite collection_insert_eq.
    rewrite lookup_insert_ne; [done|]. intros Heq. congruence.
  - by rewrite collection_insert_ne.
Qed.

(** A successful [save] leaves the other collections as they were. *)
Lemma save_frame (M : Model) (doc saved : Document) (env : Env)
    (db db' : Db) (c : string) :
  save M doc env db = Ok (saved, db') ->
  c <> collectionName M -> db' !! c = db !! c.
Proof.
  intros Hs Hne. apply save_Ok_inv in Hs as (_ & _ & _ & _ & ->).
  by rewrite lookup_insert_ne.
Qed.

Lemma create_with_frame (M : Model) (msg key : string)
    (obj : list (string * option json)) (env : Env) (db : Db) (c : string) :
  c <> collectionName M -> snd (create_with M msg key obj env db) !! c = db !! c.
Proof.
  intros Hne. unfold create_with.
  destruct (save M (new_ M obj env) env db) as [[saved db']|msg'] eqn:Hs; [|done].
  simpl. eauto using save_frame.
Qed.

Lemma create_with_preserves (M : Model) (msg key : string)
    (obj : list (string * option json)) (env : Env) (db : Db)
    (c id : string) (r : json) :
  collection c db !! id = Some r ->
  collection c (snd (create_with M msg key obj env db)) !! id = Some r.
Proof.
  intros Hr. unfold create_with.
  destruct (save M (new_ M obj env) env db) as [[saved db']|msg'] eqn:Hs; [|done].
  simpl. eauto using save_preserves.
Qed.

Lemma get_with_readonly (M : Model) (id : string) (env : Env) (db : Db) :
  snd (get_with M id env db) = db.
Proof.
  unfold get_with. destruct (findById M id env db) as [[r|]|msg]; reflexivity.
Qed.

(** ** Reading the constructor's argument *)

Lemma field_defined (b : list (string * json)) (ks : list string) (k : string) :
  field k (defined (map (fun k' => (k', field k' b)) ks)) =
  if existsb (String.eqb k) ks then field k b else None.
Proof.
  induction ks as [|k0 ks IH]; [reflexivity|].
  cbn [map existsb]. unfold defined in *. cbn [omap list_omap snd fst].
  destruct (String.eqb k k0) eqn:Hk.
  - apply String.eqb_eq in Hk as ->. cbn [orb].
    destruct (field k0 b) as [v|] eqn:Hv.
    + cbn [field]. by rewrite String.eqb_refl.
    + rewrite IH. by destruct (existsb _ ks).
  - cbn [orb]. destruct (field k0 b) as [v|]; [|exact IH].
    cbn [field]. by rewrite Hk.
Qed.

Lemma existsb_eqb_In (ks : list string) (k : string) :
  In k ks -> existsb (String.eqb k) ks = true.
Proof.
  intros Hin. apply existsb_exists. exists k. split; [done|apply String.eqb_refl].
Qed.

Lemma new_id_eq (M : Model) (obj : list (string * option json)) (env : Env) :
  doc_id (new_ M obj env) = new_id env.
Proof. unfold new_. by destruct (cast_fields _ _ _ _). Qed.

Lemma new_fields_eq (M : Model) (obj : list (string * option json)) (env : Env) :
  doc_fields (new_ M obj env) =
  fst (cast_fields (sub_id env) "" (defined obj) (schema M)).
Proof. unfold new_. by destruct (cast_fields _ _ _ _). Qed.

Lemma new_errors_eq (M : Model) (obj : list (string * option json)) (env : Env) :
  doc_errors (new_ M obj env) =
  snd (cast_fields (sub_id env) "" (defined obj) (schema M)).
Proof. unfold new_. by destruct (cast_fields _ _ _ _). Qed.

(** ** Casting the declared keys, one key at a time *)

Lemma cast_fields_with_cons (rec : SchemaType -> string -> json -> CastOut)
    (path : string) (o : list (string * json)) (k : string) (t : SchemaType)
    (fs : list (string * SchemaType)) :
  cast_fields_with rec path o ((k, t) :: fs) =
  (match fst (cast_key rec path o k t) with
   | Some x => (k, x) :: fst (cast_fields_with rec path o fs)
   | None => fst (cast_fields_with rec path o fs)
   end,
   snd (cast_key rec path o k t) ++ snd (cast_fields_with rec path o fs)).
Proof.
  unfold cast_key. cbn [cast_fields_with].
  destruct (match field k o with Some v => _ | None => _ end) as [r e].
  by destruct (cast_fields_with rec path o fs).
Qed.

(** A cast error at one declared key is an error of the whole object. *)
Lemma cast_fields_with_error (rec : SchemaType -> string -> json -> CastOut)
    (path : string) (o : list (string * json)) (fs : list (string * SchemaType))
    (k : string) (t : SchemaType) (v : json) (e : CastError) (es : list CastError) :
  In (k, t) fs -> field k o = Some v ->
  snd (rec t (join_path path k) v) = e :: es ->
  exists e' es', snd (cast_fields_with rec path o fs) = e' :: es'.
Proof.
  intros Hin Hv He. induction fs as [|[k0 t0] fs IH]; [destruct Hin|].
  rewrite cast_fields_with_cons. cbn [snd].
  destruct Hin as [[= -> ->]|Hin].
  - unfold cast_key. rewrite Hv, He. cbn. eauto.
  - destruct (IH Hin) as (e' & es' & ->).
    destruct (snd (cast_key rec path o k0 t0)); cbn; eauto.
Qed.

(** The cast reads the object only at the declared keys. *)
Lemma cast_fields_with_ext (rec : SchemaType -> string -> json -> CastOut)
    (path : string) (o1 o2 : list (string * json)) (fs : list (string * SchemaType)) :
  (forall k, In k (map fst fs) -> field k o1 = field k o2) ->
  cast_fields_with rec path o1 fs = cast_fields_with rec path o2 fs.
Proof.
  induction fs as [|[k t] fs IH]; intros Hext; [reflexivity|].
  rewrite !cast_fields_with_cons. unfold cast_key.
  rewrite (Hext k) by (left; reflexivity).
  rewrite IH; [reflexivity|]. intros k' Hk'. apply Hext. by right.
Qed.

(** ** Induction over schema types *)

Lemma SchemaType_nested_ind (P : SchemaType -> Prop) :
  P SString -> P SNumber ->
  (forall fs, Forall (fun kt => P (snd kt)) fs -> P (SNested fs)) ->
  (forall fs, Forall (fun kt => P (snd kt)) fs -> P (SDocArray fs)) ->
  forall t, P t.
Proof.
  intros Hs Hn Hnest Harr. fix IH 1. intros [| |fs|fs].
  - exact Hs.
  - exact Hn.
  - apply Hnest. induction fs as [|[k t] fs IHfs]; constructor.
    + apply IH.
    + exact IHfs.
  - apply Harr. induction fs as [|[k t] fs IHfs]; constructor.
    + apply IH.
    + exact IHfs.
Qed.

(** ** Paths *)


Lemma field_app {A : Type} (k : string) (l1 l2 : list (string * A)) :
  field k (l1 ++ l2) =
  match field k l1 with
  | Some v => Some v
  | None => field k l2
  end.
Proof.
  induction l1 as [|[k0 v0] l1 IH]; [reflexivity|].
  simpl. destruct (String.eqb k k0); [reflexivity|exact IH].
Qed.

Lemma field_Some_existsb {A : Type} (k : string) (l : list (string * A)) (v : A) :
  field k l = Some v -> existsb (String.eqb k) (map fst l) = true.
Proof.
  induction l as [|[k0 v0] l IH]; [discriminate|].
  cbn [field map fst existsb]. destruct (String.eqb k k0); [done|]. exact IH.
Qed.



(** ** Object identifiers *)

Lemma to_lower_lower_hex (a : ascii) : is_lower_hex a = true -> to_lower a = a.
Proof.
  destruct a as [[] [] [] [] [] [] [] []]; try discriminate; reflexivity.
Qed.

Lemma lowercase_lower_hex (s : string) : all_lower_hex s = true -> lowercase s = s.
Proof.
  induction s as [|a s IH]; [reflexivity|].
  cbn [all_lower_hex lowercase]. intros [Ha Hs]%andb_prop.
  by rewrite (to_lower_lower_hex a Ha), IH.
Qed.

(** An identifier the driver generated casts back to itself. *)
Lemma castObjectId_oid (id : ObjectId) : castObjectId (oid_hex id) = Some (oid_hex id).
Proof.
  unfold castObjectId. pose proof (oid_valid id) as Hv.
  assert (Hl : lowercase (oid_hex id) = oid_hex id).
  { apply lowercase_lower_hex. unfold is_oid_hex in Hv.
    by apply andb_prop in Hv as [_ Hv]. }
  cbn zeta. by rewrite Hl, Hv.
Qed.

(** ** Casting a value of the declared shape *)

Lemma cast_fields_absent_key (rec : SchemaType -> string -> json -> CastOut)
    (path : string) (o : list (string * json)) (fs : list (string * SchemaType))
    (k : string) :
  existsb (String.eqb k) (map fst fs) = false ->
  field k (fst (cast_fields_with rec path o fs)) = None.
Proof.
  induction fs as [|[k0 t0] fs IH]; [reflexivity|].
  cbn [map fst existsb]. intros [Hk Hin]%orb_false_elim.
  rewrite cast_fields_with_cons. cbn [fst].
  destruct (fst (cast_key rec path o k0 t0)); [|by apply IH].
  cbn [field]. rewrite Hk. by apply IH.
Qed.

Lemma cast_fields_lookup (rec : SchemaType -> string -> json -> CastOut)
    (path : string) (o : list (string * json)) (fs : list (string * SchemaType))
    (k : string) (t : SchemaType) :
  distinct (map fst fs) = true -> field k fs = Some t ->
  field k (fst (cast_fields_with rec path o fs)) = fst (cast_key rec path o k t).
Proof.
  induction fs as [|[k0 t0] fs IH]; [discriminate|].
  cbn [map fst distinct field]. intros [Hk0 Hd]%andb_prop Hf.
  apply negb_true_iff in Hk0. rewrite cast_fields_with_cons. cbn [fst].
  destruct (String.eqb k k0) eqn:Hk.
  - apply String.eqb_eq in Hk. subst k0. injection Hf as ->.
    destruct (fst (cast_key rec path o k t)) as [x|].
    + cbn [field]. by rewrite String.eqb_refl.
    + by apply cast_fields_absent_key.
  - destruct (fst (cast_key rec path o k0 t0)); [|by apply IH].
    cbn [field]. rewrite Hk. by apply IH.
Qed.



Lemma wf_fields_inv (fs : list (string * SchemaType)) :
  distinct ("_id" :: "__v" :: map fst fs) = true ->
  existsb (String.eqb "_id") (map fst fs) = false
  /\ existsb (String.eqb "__v") (map fst fs) = false
  /\ distinct (map fst fs) = true.
Proof.
  cbn [distinct existsb]. intros [H1 [H2 H3]%andb_prop]%andb_prop.
  apply negb_true_iff in H1, H2. apply orb_false_elim in H1 as [_ H1].
  auto.
Qed.

Lemma declared_key_not (fs : list (string * SchemaType)) (k k' : string)
    (t : SchemaType) :
  field k fs = Some t -> existsb (String.eqb k') (map fst fs) = false ->
  String.eqb k k' = false.
Proof.
  intros Hf Hk'. destruct (String.eqb k k') eqn:Hk; [|reflexivity].
  apply String.eqb_eq in Hk. subst k'.
  apply field_Some_existsb in Hf. congruence.
Qed.





Lemma json_number_not_nan (n : float) :
  json_number n = true -> PrimFloat.is_nan n = false.
Proof.
  unfold json_number, PrimFloat.is_finite.
  intros [Hfin _]%andb_prop. apply negb_true_iff in Hfin.
  by apply orb_false_elim in Hfin as [Hnan _].
Qed.

(** The [Number] cast keeps a JSON number as it is. *)
Lemma castNumber_json_number (path : string) (n : float) :
  json_number n = true -> castNumber path (JNum n) = (Some (JNum n), []).
Proof.
  intros Hn. unfold castNumber. by rewrite (json_number_not_nan n Hn).
Qed.


(** ** Constructing a document from a body of the declared shape *)

Lemma schema_keys_allowed (e : Entity) :
  map fst (schema (model_of e)) = allow_list e.
Proof. destruct e; reflexivity. Qed.

Lemma schema_wf (e : Entity) :
  distinct ("_id" :: "__v" :: map fst (schema (model_of e))) = true
  /\ forallb (fun '(_, t') => wf_type t') (schema (model_of e)) = true.
Proof. destruct e; split; reflexivity. Qed.

Lemma new_reads_body (e : Entity) (b : list (string * json)) (env : Env) :
  cast_fields (sub_id env) "" (defined (constructor_arg e b)) (schema (model_of e)) =
  cast_fields (sub_id env) "" b (schema (model_of e)).
Proof.
  unfold cast_fields. apply cast_fields_with_ext. intros k Hk.
  unfold constructor_arg. rewrite field_defined.
  rewrite existsb_eqb_In; [reflexivity|]. by rewrite <- schema_keys_allowed.
Qed.


(** ** The claims *)

(** C5. [GET /health] answers 200 with the fixed payload
    [{status: "OK", service: "vegetable-app"}] for every request, whatever
    the driver would do and whatever the store holds; it leaves the store
    alone, and its response is the same under any two requests, driver
    behaviours and stores. *)
Theorem health_always_ok (req req' : Request) (env env' : Env) (db db' : Db) :
  app GET_health req env db =
    (status_json 200
       (JObj [("status", JStr "OK"); ("service", JStr "vegetable-app")]), db)
  /\ fst (app GET_health req env db) = fst (app GET_health req' env' db').
Proof. split; reflexivity. Qed.

(** C3. A read by an identifier that is well-formed (the query can cast
    it) and matches no record of the entity's collection, on a store that
    answers, returns 404 with a body made of a [message] field, and leaves
    the store as it was.  At the cart route and the all-zero identifier the
    body is [{message: "Cart not found"}]. *)
Theorem get_by_id_not_found (e : Entity) (req : Request) (h : string)
    (env : Env) (db : Db) :
  castObjectId (params_id req) = Some h ->
  fault env = None ->
  collection (collectionName (model_of e)) db !! h = None ->
  get_by_id e req env db =
    (status_json 404
       (JObj [("message", JStr (modelName (model_of e) +:+ " not found"))]), db).
Proof.
  intros Hid Hf Hnone. rewrite get_by_id_unfold.
  unfold get_with, findById. by rewrite Hid, Hf, Hnone.
Qed.

(** C4. A read by an identifier the query cannot cast (a string that is
    neither 24 hexadecimal digits nor twelve characters) returns 500 with a
    body made of an [error] field carrying the message of the library's
    cast error; the handler is a total function, the error is caught
    before any storage call is issued (the driver's behaviour is
    irrelevant), and the store is left as it was. *)
Theorem get_by_id_malformed (e : Entity) (req : Request) (env : Env) (db : Db) :
  castObjectId (params_id req) = None ->
  get_by_id e req env db =
    (status_json 500
       (JObj [("error",
               JStr (message_of (IdCastError (modelName (model_of e))
                                   (params_id req))))]),
     db).
Proof.
  intros Hid. rewrite get_by_id_unfold. unfold get_with, findById.
  by rewrite Hid.
Qed.

(** C7. Whenever the [save] a create handler issues fails, the handler
    answers 500 with the error's message, unchanged, in the [error] field
    of the body, and the store is left exactly as it was. *)
Theorem create_storage_failure (e : Entity) (req : Request) (env : Env)
    (db : Db) (msg : string) :
  save (model_of e) (new_ (model_of e) (constructor_arg e (body req)) env)
    env db = Throw msg ->
  create e req env db = (status_json 500 (JObj [("error", JStr msg)]), db).
Proof.
  intros Hs. rewrite create_unfold. unfold create_with. by rewrite Hs.
Qed.

(** C8. Every read route (and the health route) leaves the store exactly
    as it was; a create route leaves every collection but its own as it
    was; and no route changes or removes a record that is in the store. *)
Theorem routes_frame (r : Route) (req : Request) (env : Env) (db : Db) :
  match writes_to r with
  | None => snd (app r req env db) = db
  | Some c => forall c', c' <> c -> snd (app r req env db) !! c' = db !! c'
  end
  /\ forall (c id : string) (record : json),
       collection c db !! id = Some record ->
       collection c (snd (app r req env db)) !! id = Some record.
Proof.
  destruct r; cbn [writes_to app].
  - split; [reflexivity|]. intros c id record Hr. exact Hr.
  - change post_order with (create OrderE). rewrite create_unfold. split.
    + intros c' Hne. by apply create_with_frame.
    + intros c id record Hr. by apply create_with_preserves.
  - change get_order with (get_by_id OrderE). rewrite get_by_id_unfold.
    rewrite get_with_readonly. split; [reflexivity|]. intros c id record Hr. exact Hr.
  - change post_cart with (create CartE). rewrite create_unfold. split.
    + intros c' Hne. by apply create_with_frame.
    + intros c id record Hr. by apply create_with_preserves.
  - change get_cart with (get_by_id CartE). rewrite get_by_id_unfold.
    rewrite get_with_readonly. split; [reflexivity|]. intros c id record Hr. exact Hr.
  - change post_checkout with (create CheckoutE). rewrite create_unfold. split.
    + intros c' Hne. by apply create_with_frame.
    + intros c id record Hr. by apply create_with_preserves.
  - change get_checkout with (get_by_id CheckoutE). rewrite get_by_id_unfold.
    rewrite get_with_readonly. split; [reflexivity|]. intros c id record Hr. exact Hr.
Qed.

Lemma field_restrict (ks : list string) (b : list (string * json)) (k : string) :
  field k (restrict ks b) = if existsb (String.eqb k) ks then field k b else None.
Proof.
  induction b as [|[k0 v0] b IH].
  - cbn. by destruct (existsb _ ks).
  - unfold restrict in *. cbn [List.filter fst field].
    destruct (String.eqb k k0) eqn:Hk.
    + apply String.eqb_eq in Hk. subst k0.
      destruct (existsb (String.eqb k) ks) eqn:Hin.
      * cbn [field]. by rewrite String.eqb_refl.
      * exact IH.
    + destruct (existsb (String.eqb k0) ks) eqn:Hin.
      * cbn [field]. rewrite Hk. exact IH.
      * exact IH.
Qed.

Lemma agree_restrict (ks : list string) (b : list (string * json)) :
  agree ks b (restrict ks b).
Proof.
  intros k Hk. rewrite field_restrict. by rewrite existsb_eqb_In.
Qed.

Lemma constructor_arg_agree (e : Entity) (b1 b2 : list (string * json)) :
  agree (allow_list e) b1 b2 -> constructor_arg e b1 = constructor_arg e b2.
Proof.
  intros Hag. unfold constructor_arg. apply map_ext_in.
  intros k Hk. by rewrite (Hag k Hk).
Qed.

Lemma create_agree (e : Entity) (req1 req2 : Request) (env : Env) (db : Db) :
  agree (allow_list e) (body req1) (body req2) ->
  create e req1 env db = create e req2 env db.
Proof.
  intros Hag. rewrite !create_unfold. by rewrite (constructor_arg_agree e _ _ Hag).
Qed.

Lemma cast_fields_keys (rec : SchemaType -> string -> json -> CastOut)
    (path : string) (o : list (string * json)) (fs : list (string * SchemaType))
    (k : string) (v : json) :
  field k (fst (cast_fields_with rec path o fs)) = Some v -> In k (map fst fs).
Proof.
  intros Hk. destruct (existsb (String.eqb k) (map fst fs)) eqn:Hin.
  - apply existsb_exists in Hin as (k' & Hin & ->%String.eqb_eq). exact Hin.
  - rewrite cast_fields_absent_key in Hk by done. discriminate.
Qed.

(** What the stored form of a new document binds a declared path to. *)
Lemma toObject_declared (e : Entity) (b : list (string * json)) (env : Env)
    (k : string) (t : SchemaType) :
  field k (schema (model_of e)) = Some t ->
  prop k (toObject (new_ (model_of e) (constructor_arg e b) env)) =
  fst (cast_key (cast (sub_id env)) "" b k t).
Proof.
  intros Hk. destruct (schema_wf e) as [Hd _].
  destruct (wf_fields_inv _ Hd) as (Hid & Hv & Hd').
  unfold toObject. cbn [prop field].
  rewrite (declared_key_not _ k "_id" _ Hk Hid), field_app.
  rewrite new_fields_eq, new_reads_body. unfold cast_fields.
  rewrite (cast_fields_lookup _ _ _ _ k t Hd' Hk).
  destruct (fst (cast_key (cast (sub_id env)) "" b k t)); [reflexivity|].
  cbn [field]. by rewrite (declared_key_not _ k "__v" _ Hk Hv).
Qed.

(** The stored form of a new document binds [_id], [__v] and declared
    paths only. *)
Lemma toObject_keys (e : Entity) (b : list (string * json)) (env : Env)
    (k : string) (v : json) :
  prop k (toObject (new_ (model_of e) (constructor_arg e b) env)) = Some v ->
  k = "_id" \/ k = "__v" \/ In k (allow_list e).
Proof.
  unfold toObject. cbn [prop field].
  destruct (String.eqb k "_id") eqn:Hid; [apply String.eqb_eq in Hid; auto|].
  rewrite field_app.
  destruct (field k (doc_fields _)) as [w|] eqn:Hw.
  - intros _. right. right. rewrite <- schema_keys_allowed.
    rewrite new_fields_eq in Hw. by apply cast_fields_keys in Hw.
  - cbn [field]. destruct (String.eqb k "__v") eqn:Hv; [|discriminate].
    apply String.eqb_eq in Hv. auto.
Qed.

(** C2, as amended.  Two request bodies that agree on the entity's
    allow-list get the same response from the create handler and leave the
    same store behind; in particular the body cut down to the allow-list
    gives the same outcome (other names are dropped).  When the handler
    answers 201, the record stored under the new identifier binds no
    top-level name besides [_id], [__v] and the allow-list; it binds an
    allow-listed name the body leaves out to nothing when the schema
    declares a string, a number or a nested record there, and to the empty
    array when it declares an array ([items], [cart]); and it binds a
    declared string (number) path to the body's value when that is a
    string (a JSON number). *)
Theorem create_depends_only_on_allow_list (e : Entity) (req1 req2 : Request)
    (env : Env) (db : Db) :
  agree (allow_list e) (body req1) (body req2) ->
  create e req1 env db = create e req2 env db
  /\ create e req1 env db =
     create e (mkRequest (params_id req1) (restrict (allow_list e) (body req1)))
       env db
  /\ (status (fst (create e req1 env db)) = 201 ->
      exists record,
        collection (collectionName (model_of e)) (snd (create e req1 env db))
          !! oid_hex (new_id env) = Some record
        /\ (forall k v, prop k record = Some v ->
              k = "_id" \/ k = "__v" \/ In k (allow_list e))
        /\ (forall k t, field k (schema (model_of e)) = Some t ->
              field k (body req1) = None ->
              prop k record = default_of t)
        /\ (forall k s, field k (schema (model_of e)) = Some SString ->
              field k (body req1) = Some (JStr s) ->
              prop k record = Some (JStr s))
        /\ (forall k n, field k (schema (model_of e)) = Some SNumber ->
              field k (body req1) = Some (JNum n) ->
              json_number n = true ->
              prop k record = Some (JNum n))).
Proof.
  intros Hag. split; [by apply create_agree|]. split.
  - apply create_agree. cbn [body]. apply agree_restrict.
  - intros Hst.
    exists (toObject (new_ (model_of e) (constructor_arg e (body req1)) env)).
    split; [|split; [|split; [|split]]].
    + rewrite create_unfold in *. unfold create_with in *.
      destruct (save _ _ env db) as [[saved db']|msg] eqn:Hs; [|discriminate].
      apply save_Ok_inv in Hs as (_ & _ & _ & _ & ->).
      cbn [snd]. rewrite collection_insert_eq, new_id_eq.
      apply lookup_insert_eq.
    + intros k v. apply toObject_keys.
    + intros k t Hk Hb. rewrite (toObject_declared e _ env k t Hk).
      unfold cast_key. by rewrite Hb.
    + intros k s Hk Hb. rewrite (toObject_declared e _ env k _ Hk).
      unfold cast_key. by rewrite Hb.
    + intros k n Hk Hb Hn. rewrite (toObject_declared e _ env k _ Hk).
      unfold cast_key. rewrite Hb. cbn [cast].
      by rewrite (castNumber_json_number _ n Hn).
Qed.

(** C6. [POST /checkout] with an empty body, on a store that answers and
    with an identifier that is not yet in the collection, returns 201 with
    the confirmation message and the new [checkoutId]; the record stored
    under that identifier has no [cartTotal] (nor [customer]) field. *)
Theorem post_checkout_empty_body (req : Request) (env : Env) (db : Db) :
  body req = [] ->
  fault env = None ->
  collection "checkouts" db !! oid_hex (new_id env) = None ->
  exists db' stored,
    post_checkout req env db =
      (status_json 201
         (JObj [("message", JStr "Checkout successful!");
                ("checkoutId", JStr (oid_hex (new_id env)))]), db')
    /\ collection "checkouts" db' !! oid_hex (new_id env) = Some stored
    /\ stored = JObj [("_id", JStr (oid_hex (new_id env))); ("cart", JArr []);
                      ("__v", JNum 0)]
    /\ prop "cartTotal" stored = None.
Proof.
  intros Hb Hf Hfresh.
  unfold post_checkout. rewrite Hb. cbn [field].
  set (doc := new_ Checkout _ env).
  assert (Hdoc : doc = mkDocument (new_id env) [("cart", JArr [])] []) by reflexivity.
  rewrite (save_Ok_intro Checkout doc env db); rewrite ?Hdoc; try done.
  eexists _, _. split; [reflexivity|]. split.
  - rewrite collection_insert_eq. apply lookup_insert_eq.
  - split; reflexivity.
Qed.

(** C10. Creation does not accept everything: whenever the body of
    [POST /order] binds [totalCost] to a nested object (one with no [_id]
    of its own, which the [Number] cast would take in its place), the cast
    refuses it, the constructed document carries a cast error, [save]
    rejects it at validation, and the handler answers 500 with the
    library's message instead of 201; nothing is stored. *)
Theorem post_order_rejects_object_totalCost (req : Request)
    (o : list (string * json)) (env : Env) (db : Db) :
  field "totalCost" (body req) = Some (JObj o) ->
  field "_id" o = None ->
  exists e es msg,
    doc_errors (new_ Order (constructor_arg OrderE (body req)) env) = e :: es
    /\ save Order (new_ Order (constructor_arg OrderE (body req)) env) env db
       = Throw msg
    /\ post_order req env db =
       (status_json 500 (JObj [("error", JStr msg)]), db).
Proof.
  intros Hv Hnoid.
  destruct (cast_fields_with_error (cast (sub_id env)) ""
              (defined (constructor_arg OrderE (body req))) orderSchema
              "totalCost" SNumber (JObj o)
              (mkCastError "Number" (JObj o) "totalCost") [])
    as (e & es & He).
  - cbn. tauto.
  - unfold constructor_arg. rewrite field_defined. exact Hv.
  - cbn [cast]. unfold castNumber. by rewrite Hnoid.
  - assert (Herr : doc_errors (new_ Order (constructor_arg OrderE (body req)) env)
                   = e :: es).
    { rewrite new_errors_eq. exact He. }
    exists e, es. eexists. split; [exact Herr|].
    assert (Hs : save Order (new_ Order (constructor_arg OrderE (body req)) env)
                   env db
                 = Throw (message_of (ValidationError "Order" (e :: es)))).
    { unfold save. by rewrite Herr. }
    split; [exact Hs|].
    change post_order with (create OrderE). rewrite create_unfold.
    unfold create_with. cbn [model_of]. by rewrite Hs.
Qed.


End Properties.

(** C9. Start-up calls [mongoose.connect] exactly once, whatever the
    driver answers to this or to any later attempt.  When the attempt
    succeeds the routine logs the success and returns, the process keeps
    running; when it fails the routine logs the error and exits with code 1
    at once: nothing happens between the log line and the exit, and no
    second attempt is made. *)
Theorem connectToDatabase_single_attempt (MONGO_URL : option string)
    (driver : nat -> Result unit) :
  connection_attempts (fst (run driver 0 (connectToDatabase MONGO_URL))) = 1
  /\ match driver 0 with
     | Ok _ =>
         run driver 0 (connectToDatabase MONGO_URL) =
           ([EvConnect (MONGO_URI MONGO_URL);
             EvConsole MongoDB_connected_successfully], None)
     | Throw msg =>
         run driver 0 (connectToDatabase MONGO_URL) =
           ([EvConnect (MONGO_URI MONGO_URL);
             EvConsole (MongoDB_connection_error msg);
             EvExit 1], Some 1%Z)
     end.
Proof.
  cbn [connectToDatabase run].
  destruct (driver 0) as [[]|msg]; cbn; split; reflexivity.
Qed.

(** * The statements at concrete requests *)



Lemma create_depends_only_on_allow_list_witness :
  agree (allow_list OrderE) sample_order_with_extras sample_order
  /\ create OrderE (mkRequest "" sample_order_with_extras) env_ok ∅ =
     create OrderE (mkRequest "" sample_order) env_ok ∅
  /\ exists record,
       collection "orders"
         (snd (create OrderE (mkRequest "" sample_order_with_extras) env_ok ∅))
         !! "65f0c2a1b3d4e5f60718293a" = Some record
       /\ prop "name" record = Some (JStr "A")
       /\ prop "totalCost" record = Some (JNum 40).
Proof.
  assert (Hag : agree (allow_list OrderE) sample_order_with_extras sample_order).
  { intros k Hk. cbn in Hk.
    destruct Hk as [<-|[<-|[<-|[<-|[<-|[<-|[]]]]]]]; reflexivity. }
  split; [exact Hag|].
  destruct (create_depends_only_on_allow_list OrderE
              (mkRequest "" sample_order_with_extras)
              (mkRequest "" sample_order) env_ok ∅ Hag)
    as (Hsame & _ & Hstored).
  split; [exact Hsame|].
  destruct (Hstored eq_refl) as (record & Hrec & _ & _ & Hstr & Hnum).
  exists record. split; [exact Hrec|]. split.
  - exact (Hstr "name" "A" eq_refl eq_refl).
  - exact (Hnum "totalCost" 40%float eq_refl eq_refl eq_refl).
Defined.

(** A cart posted with an empty body: [items] is missing from the body,
    and the stored record binds it to the empty array, which is neither
    absent nor null. *)
Lemma missing_array_counterexample :
  field "items" ([] : list (string * json)) = None
  /\ status (fst (create CartE (mkRequest "" []) env_ok ∅)) = 201
  /\ exists record,
       collection "carts" (snd (create CartE (mkRequest "" []) env_ok ∅))
         !! "65f0c2a1b3d4e5f60718293a" = Some record
       /\ prop "items" record = Some (JArr [])
       /\ ~ (prop "items" record = None \/ prop "items" record = Some JNull).
Proof.
  split; [reflexivity|]. split; [reflexivity|].
  exists (JObj [("_id", JStr "65f0c2a1b3d4e5f60718293a"); ("items", JArr []);
                ("__v", JNum 0)]).
  split; [vm_compute; reflexivity|]. split; [reflexivity|].
  intros [Hn|Hn]; discriminate Hn.
Qed.

(** The spec's cart scenario. *)
Lemma get_by_id_not_found_witness :
  castObjectId "000000000000000000000000" = Some "000000000000000000000000"
  /\ fault env_ok = None
  /\ collection "carts" (∅ : Db) !! "000000000000000000000000" = None
  /\ get_by_id CartE (mkRequest "000000000000000000000000" []) env_ok ∅ =
       (status_json 404 (JObj [("message", JStr "Cart not found")]), ∅).
Proof.
  split; [reflexivity|]. split; [reflexivity|]. split; [reflexivity|].
  exact (get_by_id_not_found CartE (mkRequest "000000000000000000000000" [])
           "000000000000000000000000" env_ok ∅ eq_refl eq_refl eq_refl).
Defined.

Lemma get_by_id_malformed_witness :
  castObjectId "not-an-id" = None
  /\ get_by_id OrderE (mkRequest "not-an-id" []) env_down ∅ =
       (status_json 500
          (JObj [("error",
                  JStr (message_of (IdCastError "Order" "not-an-id")))]), ∅).
Proof.
  split; [reflexivity|].
  exact (get_by_id_malformed OrderE (mkRequest "not-an-id" []) env_down ∅ eq_refl).
Defined.

(** The spec's checkout scenario. *)
Lemma post_checkout_empty_body_witness :
  fault env_ok = None
  /\ collection "checkouts" (∅ : Db) !! oid_hex oid_a = None
  /\ exists db' stored,
       post_checkout (mkRequest "" []) env_ok ∅ =
         (status_json 201
            (JObj [("message", JStr "Checkout successful!");
                   ("checkoutId", JStr "65f0c2a1b3d4e5f60718293a")]), db')
       /\ collection "checkouts" db' !! "65f0c2a1b3d4e5f60718293a" = Some stored
       /\ prop "cartTotal" stored = None.
Proof.
  split; [reflexivity|]. split; [reflexivity|].
  assert (Hfresh : collection "checkouts" (∅ : Db) !! oid_hex (new_id env_ok)
                   = None) by reflexivity.
  destruct (post_checkout_empty_body (mkRequest "" []) env_ok ∅
              eq_refl eq_refl Hfresh)
    as (db' & stored & Hpost & Hstored & _ & Hnone).
  exists db', stored. split; [exact Hpost|]. split; [exact Hstored|exact Hnone].
Defined.

Lemma create_storage_failure_witness :
  save Order (new_ Order (constructor_arg OrderE sample_order) env_down) env_down ∅
    = Throw "connect ECONNREFUSED 10.0.0.7:27017"
  /\ create OrderE (mkRequest "" sample_order) env_down ∅ =
       (status_json 500
          (JObj [("error", JStr "connect ECONNREFUSED 10.0.0.7:27017")]), ∅).
Proof.
  split; [reflexivity|].
  exact (create_storage_failure OrderE (mkRequest "" sample_order) env_down ∅
           "connect ECONNREFUSED 10.0.0.7:27017" eq_refl).
Defined.

Lemma post_order_rejects_object_totalCost_witness :
  field "totalCost" bad_order = Some (JObj [("amount", JNum 40)])
  /\ field "_id" [("amount", JNum 40)] = None
  /\ exists e es msg,
       doc_errors (new_ Order (constructor_arg OrderE bad_order) env_ok) = e :: es
       /\ save Order (new_ Order (constructor_arg OrderE bad_order) env_ok)
            env_ok ∅ = Throw msg
       /\ post_order (mkRequest "" bad_order) env_ok ∅ =
            (status_json 500 (JObj [("error", JStr msg)]), ∅).
Proof.
  split; [reflexivity|]. split; [reflexivity|].
  exact (post_order_rejects_object_totalCost (mkRequest "" bad_order)
           [("amount", JNum 40)] env_ok ∅ eq_refl eq_refl).
Defined.

(** * The model on concrete requests *)

(** The order of the spec's scenario, posted and read back. *)
Example order_scenario :
  let posted := post_order (mkRequest "" sample_order) env_ok ∅ in
  fst posted =
    status_json 201
      (JObj [("message", JStr "Order placed successfully!");
             ("orderId", JStr "65f0c2a1b3d4e5f60718293a")])
  /\ fst (get_order (mkRequest "65f0c2a1b3d4e5f60718293a" []) env_ok (snd posted)) =
       status_json 200
         (JObj [("_id", JStr "65f0c2a1b3d4e5f60718293a");
                ("name", JStr "A"); ("email", JStr "a@x.com");
                ("phone", JStr "123");
                ("address", JObj [("city", JStr "X")]);
                ("vegetables", JObj [("tomatoQty", JNum 2)]);
                ("totalCost", JNum 40); ("__v", JNum 0)]).
Proof. split; vm_compute; reflexivity. Qed.

(** The route parameter is read in either case of the hex digits. *)
Example get_order_upper_case_id :
  let posted := post_order (mkRequest "" sample_order) env_ok ∅ in
  status (fst (get_order (mkRequest "65F0C2A1B3D4E5F60718293A" []) env_ok
                 (snd posted))) = 200.
Proof. vm_compute. reflexivity. Qed.

(** Names outside the allow-list never reach the store. *)
Example extras_are_dropped :
  snd (post_order (mkRequest "" sample_order_with_extras) env_ok ∅) =
  snd (post_order (mkRequest "" sample_order) env_ok ∅).
Proof. vm_compute. reflexivity. Qed.

(** Scalars of the other primitive type are converted, and keys a nested
    schema does not declare are dropped. *)
Example cast_converts_and_strips :
  doc_fields
    (new_ Order
       [("name", None); ("email", None); ("phone", Some (JNum 123));
        ("address", Some (JObj [("city", JStr "X"); ("zip", JStr "500001")]));
        ("vegetables", Some (JObj [("tomatoQty", JStr "2")]));
        ("totalCost", Some (JBool true))] env_ok) =
  [("phone", JStr "123"); ("address", JObj [("city", JStr "X")]);
   ("vegetables", JObj [("tomatoQty", JNum 2)]); ("totalCost", JNum 1)].
Proof. vm_compute. reflexivity. Qed.

(** An identifier of twelve characters is read as its twelve bytes. *)
Example get_order_twelve_characters :
  castObjectId "123456789012" = Some "313233343536373839303132"
  /\ fst (get_order (mkRequest "123456789012" []) env_ok ∅) =
       status_json 404 (JObj [("message", JStr "Order not found")]).
Proof. split; vm_compute; reflexivity. Qed.

(** At a string or number path an object that has an [_id] is cast as
    that [_id]. *)
Example cast_takes_the_id_of_an_object :
  doc_fields
    (new_ Order
       [("name", Some (JObj [("_id", JStr "abc")]));
        ("totalCost", Some (JObj [("_id", JNum 40)]))] env_ok) =
  [("name", JStr "abc"); ("totalCost", JNum 40)].
Proof. vm_compute. reflexivity. Qed.

(** A null given for a nested path is stored and read back. *)
Example nested_null_is_stored :
  let posted := post_order (mkRequest "" [("address", JNull)]) env_ok ∅ in
  fst (get_order (mkRequest "65f0c2a1b3d4e5f60718293a" []) env_ok (snd posted)) =
    status_json 200
      (JObj [("_id", JStr "65f0c2a1b3d4e5f60718293a"); ("address", JNull);
             ("__v", JNum 0)]).
Proof. vm_compute. reflexivity. Qed.

(** A line item's own [_id] is cast, and a line item has to be a record:
    an [_id] that is no identifier fails the create, and so does an item
    that is a number. *)
Example line_item_refused :
  status (fst (post_cart
                 (mkRequest "" [("items", JArr [JObj [("_id", JStr "zzz")]])])
                 env_ok ∅)) = 500
  /\ status (fst (post_cart (mkRequest "" [("items", JArr [JNum 0])])
                    env_ok ∅)) = 500.
Proof. split; vm_compute; reflexivity. Qed.

(** A second insert under an identifier that is taken is refused and
    changes nothing. *)
Example duplicate_id_is_refused :
  let db := snd (post_order (mkRequest "" sample_order) env_ok ∅) in
  status (fst (post_order (mkRequest "" []) env_ok db)) = 500
  /\ snd (post_order (mkRequest "" []) env_ok db) = db.
Proof. split; vm_compute; reflexivity. Qed.

(** Start-up against a driver that refuses the connection. *)
Example startup_connection_refused :
  run (fun _ => Throw "ECONNREFUSED") 0 (connectToDatabase None) =
  ([EvConnect "mongodb://vegetable-app-mongodb-svc:27017/vegetable_order_app";
    EvConsole (MongoDB_connection_error "ECONNREFUSED");
    EvExit 1], Some 1%Z).
Proof. reflexivity. Qed.

Example startup_uses_MONGO_URL :
  fst (run (fun _ => Ok tt) 0 (connectToDatabase (Some "mongodb://db:27017/veg"))) =
  [EvConnect "mongodb://db:27017/veg"; EvConsole MongoDB_connected_successfully].
Proof. reflexivity. Qed.

(** * Further properties of the handlers *)

Section Coverage.
Context {runtime : NodeRuntime} {text : ErrorText} {corners : CastCorners}.

Lemma model_collections_distinct (e e' : Entity) :
  e <> e' -> collectionName (model_of e) <> collectionName (model_of e').
Proof. destruct e, e'; intros Hne; try congruence; discriminate. Qed.

Lemma findById_Ok (M : Model) (id h : string) (env : Env) (db : Db) :
  castObjectId id = Some h -> fault env = None ->
  findById M id env db = Ok (collection (collectionName M) db !! h).
Proof. intros Hid Hf. unfold findById. by rewrite Hid, Hf. Qed.

(** ** Reads *)


(** X2. A read by a well-formed identifier during which the driver fails
    returns 500 with the driver's message, unchanged, in the [error] field,
    whether or not the record exists, and leaves the store as it was. *)
Theorem get_by_id_storage_failure (e : Entity) (req : Request) (h : string)
    (env : Env) (db : Db) (msg : string) :
  castObjectId (params_id req) = Some h ->
  fault env = Some msg ->
  get_by_id e req env db = (status_json 500 (JObj [("error", JStr msg)]), db).
Proof.
  intros Hid Hf. rewrite get_by_id_unfold. unfold get_with, findById.
  by rewrite Hid, Hf.
Qed.

(** ** Creates *)

Lemma create_with_Ok (M : Model) (msg key : string)
    (obj : list (string * option json)) (env : Env) (db : Db) :
  doc_errors (new_ M obj env) = [] -> fault env = None ->
  collection (collectionName M) db !! oid_hex (new_id env) = None ->
  create_with M msg key obj env db =
  (status_json 201 (JObj [("message", JStr msg); (key, JStr (oid_hex (new_id env)))]),
   <[collectionName M :=
       <[oid_hex (new_id env) := toObject (new_ M obj env)]>
         (collection (collectionName M) db)]> db).
Proof.
  intros He Hf Hfresh. unfold create_with.
  rewrite (save_Ok_intro M _ env db He Hf); rewrite new_id_eq; done.
Qed.

Lemma create_with_cases (M : Model) (msg key : string)
    (obj : list (string * option json)) (env : Env) (db : Db) :
  (doc_errors (new_ M obj env) = [] /\ fault env = None
   /\ collection (collectionName M) db !! oid_hex (new_id env) = None
   /\ create_with M msg key obj env db =
      (status_json 201
         (JObj [("message", JStr msg); (key, JStr (oid_hex (new_id env)))]),
       <[collectionName M :=
           <[oid_hex (new_id env) := toObject (new_ M obj env)]>
             (collection (collectionName M) db)]> db))
  \/ (exists err,
        create_with M msg key obj env db =
        (status_json 500 (JObj [("error", JStr err)]), db)).
Proof.
  destruct (doc_errors (new_ M obj env)) as [|ce ces] eqn:He.
  - destruct (fault env) as [m|] eqn:Hf.
    + right. exists m. unfold create_with, save. by rewrite He, Hf.
    + destruct (collection (collectionName M) db !! oid_hex (new_id env))
        as [r|] eqn:Hc.
      * right. eexists. unfold create_with, save.
        rewrite He, Hf, new_id_eq, Hc. reflexivity.
      * left. repeat split; try done. by apply create_with_Ok.
  - right. eexists. unfold create_with, save. rewrite He. reflexivity.
Qed.

(** X3. A create has two outcomes and no other.  Either it answers 201
    with the confirmation and the new identifier, the identifier was not in
    the entity's collection before, and the store afterwards is the store
    before with exactly one record added, under that identifier (the
    collection has one record more); or it answers 500 with a body made of
    an [error] field, and the store is exactly as before. *)
Theorem create_outcome (e : Entity) (req : Request) (env : Env) (db : Db) :
  let c := collectionName (model_of e) in
  let id := oid_hex (new_id env) in
  (exists record,
     create e req env db =
       (status_json 201
          (JObj [("message", JStr (created_message e)); (id_key e, JStr id)]),
        <[c := <[id := record]> (collection c db)]> db)
     /\ collection c db !! id = None
     /\ size (collection c (snd (create e req env db))) = S (size (collection c db)))
  \/ (exists err,
        create e req env db = (status_json 500 (JObj [("error", JStr err)]), db)).
Proof.
  cbn zeta. rewrite create_unfold.
  destruct (create_with_cases (model_of e) (created_message e) (id_key e)
              (constructor_arg e (body req)) env db)
    as [(_ & _ & Hfresh & Hc)|[err Hc]].
  - left. eexists. split; [exact Hc|]. split; [exact Hfresh|].
    rewrite Hc. cbn [snd]. rewrite collection_insert_eq.
    by apply map_size_insert_None.
  - right. by exists err.
Qed.

(** ** How requests compose *)

Lemma entity_eq_or_ne (e e' : Entity) : e = e' \/ e <> e'.
Proof. destruct e, e'; (by left) || (by right). Qed.

Lemma create_snd_cases (e : Entity) (req : Request) (env : Env) (db : Db) :
  snd (create e req env db) = db
  \/ (collection (collectionName (model_of e)) db !! oid_hex (new_id env) = None
      /\ snd (create e req env db) =
         <[collectionName (model_of e) :=
             <[oid_hex (new_id env) :=
                 toObject (new_ (model_of e) (constructor_arg e (body req)) env)]>
               (collection (collectionName (model_of e)) db)]> db).
Proof.
  rewrite create_unfold.
  destruct (create_with_cases (model_of e) (created_message e) (id_key e)
              (constructor_arg e (body req)) env db)
    as [(_ & _ & Hfresh & ->)|[err ->]]; [right|left]; done.
Qed.

(** A create leaves every lookup but the one of its own collection and
    identifier as it was. *)
Lemma create_lookup_other (e e' : Entity) (req : Request) (env : Env) (db : Db)
    (h : string) :
  e <> e' \/ h <> oid_hex (new_id env) ->
  collection (collectionName (model_of e')) (snd (create e req env db)) !! h =
  collection (collectionName (model_of e')) db !! h.
Proof.
  intros Hother.
  destruct (create_snd_cases e req env db) as [->|[_ ->]]; [done|].
  destruct (entity_eq_or_ne e e') as [<-|Hne].
  - destruct Hother as [Hne|Hne]; [done|].
    rewrite collection_insert_eq. by rewrite lookup_insert_ne.
  - rewrite collection_insert_ne; [done|]. by apply model_collections_distinct.
Qed.

(** X4. A create changes the answer of no read but the read of its own
    entity at its own new identifier: a read of another entity, or of the
    same entity at another identifier, answers after the create what it
    answered before. *)
Theorem create_leaves_other_reads (e e' : Entity) (req req' : Request)
    (env env' : Env) (db : Db) :
  e <> e' \/ castObjectId (params_id req') <> Some (oid_hex (new_id env)) ->
  fst (get_by_id e' req' env' (snd (create e req env db))) =
  fst (get_by_id e' req' env' db).
Proof.
  intros Hother. rewrite !get_by_id_unfold. unfold get_with, findById.
  destruct (castObjectId (params_id req')) as [h|] eqn:Hid; [|done].
  destruct (fault env'); [done|].
  rewrite (create_lookup_other e e' req env db h).
  - by destruct (collection _ db !! h).
  - destruct Hother as [Hne|Hne]; [by left|right]. congruence.
Qed.

(** The outcome of a create depends on the store only through the lookup
    of its own collection at its own identifier. *)
Lemma create_fst_lookup (e : Entity) (req : Request) (env : Env) (db1 db2 : Db) :
  collection (collectionName (model_of e)) db1 !! oid_hex (new_id env) =
  collection (collectionName (model_of e)) db2 !! oid_hex (new_id env) ->
  fst (create e req env db1) = fst (create e req env db2).
Proof.
  intros Hl. rewrite !create_unfold. unfold create_with, save.
  destruct (doc_errors _); [|done]. destruct (fault env); [done|].
  rewrite new_id_eq, Hl.
  by destruct (collection (collectionName (model_of e)) db2 !! _).
Qed.

Lemma create_snd_eq (e : Entity) (req : Request) (env : Env) (db : Db) :
  snd (create e req env db) =
  if create_accepts e req env db then
    <[collectionName (model_of e) :=
        <[oid_hex (new_id env) :=
            toObject (new_ (model_of e) (constructor_arg e (body req)) env)]>
          (collection (collectionName (model_of e)) db)]> db
  else db.
Proof.
  rewrite create_unfold. unfold create_with, save, create_accepts.
  destruct (doc_errors _); [|done]. destruct (fault env); [done|].
  rewrite new_id_eq.
  by destruct (collection (collectionName (model_of e)) db !! _).
Qed.

Lemma create_accepts_lookup (e : Entity) (req : Request) (env : Env)
    (db1 db2 : Db) :
  collection (collectionName (model_of e)) db1 !! oid_hex (new_id env) =
  collection (collectionName (model_of e)) db2 !! oid_hex (new_id env) ->
  create_accepts e req env db1 = create_accepts e req env db2.
Proof. intros Hl. unfold create_accepts. by rewrite Hl. Qed.

Lemma insert_records_commute (c1 c2 id1 id2 : string) (r1 r2 : json) (db : Db) :
  c1 <> c2 \/ id1 <> id2 ->
  let db1 := <[c1 := <[id1 := r1]> (collection c1 db)]> db in
  let db2 := <[c2 := <[id2 := r2]> (collection c2 db)]> db in
  <[c2 := <[id2 := r2]> (collection c2 db1)]> db1 =
  <[c1 := <[id1 := r1]> (collection c1 db2)]> db2.
Proof.
  intros Hne. cbn zeta. destruct (decide (c1 = c2)) as [<-|Hc].
  - destruct Hne as [Hne|Hne]; [done|].
    rewrite !collection_insert_eq, !insert_insert_eq.
    f_equal. by apply insert_insert_ne.
  - rewrite (collection_insert_ne c1 c2) by done.
    rewrite (collection_insert_ne c2 c1) by done.
    by apply insert_insert_ne.
Qed.

(** X5. Two creates that differ in entity or in generated identifier
    commute: each answers the same whether it runs first or second, and the
    store after both is the same in either order. *)
Theorem creates_commute (e1 e2 : Entity) (req1 req2 : Request)
    (env1 env2 : Env) (db : Db) :
  e1 <> e2 \/ oid_hex (new_id env1) <> oid_hex (new_id env2) ->
  fst (create e2 req2 env2 (snd (create e1 req1 env1 db))) =
    fst (create e2 req2 env2 db)
  /\ fst (create e1 req1 env1 (snd (create e2 req2 env2 db))) =
       fst (create e1 req1 env1 db)
  /\ snd (create e2 req2 env2 (snd (create e1 req1 env1 db))) =
       snd (create e1 req1 env1 (snd (create e2 req2 env2 db))).
Proof.
  intros Hne.
  assert (Hl2 := create_lookup_other e1 e2 req1 env1 db (oid_hex (new_id env2))
                   ltac:(destruct Hne; [left|right]; congruence)).
  assert (Hl1 := create_lookup_other e2 e1 req2 env2 db (oid_hex (new_id env1))
                   ltac:(destruct Hne; [left|right]; congruence)).
  split; [by apply create_fst_lookup|]. split; [by apply create_fst_lookup|].
  rewrite (create_snd_eq e2 req2 env2 (snd (create e1 req1 env1 db))).
  rewrite (create_snd_eq e1 req1 env1 (snd (create e2 req2 env2 db))).
  rewrite (create_accepts_lookup e2 req2 env2 _ db Hl2).
  rewrite (create_accepts_lookup e1 req1 env1 _ db Hl1).
  rewrite !(create_snd_eq _ _ _ db).
  destruct (create_accepts e1 req1 env1 db), (create_accepts e2 req2 env2 db);
    try reflexivity.
  apply insert_records_commute.
  destruct Hne as [Hne|Hne]; [left|by right].
  by apply model_collections_distinct.
Qed.

(** ** What a cast without error produces *)

Lemma conforms_fields_nil (rec : SchemaType -> json -> bool)
    (fs : list (string * SchemaType)) :
  conforms_fields_with rec [] fs = true.
Proof. induction fs as [|[k t] fs IH]; [reflexivity|exact IH]. Qed.

Lemma conforms_fields_skip (rec : SchemaType -> json -> bool) (k0 : string)
    (x : json) (o : list (string * json)) (fs : list (string * SchemaType)) :
  existsb (String.eqb k0) (map fst fs) = false ->
  conforms_fields_with rec ((k0, x) :: o) fs = conforms_fields_with rec o fs.
Proof.
  induction fs as [|[k t] fs IH]; [reflexivity|].
  cbn [map fst existsb]. intros [Hk Hin]%orb_false_elim.
  cbn [conforms_fields_with field]. rewrite String.eqb_sym, Hk.
  by rewrite (IH Hin).
Qed.

Lemma conforms_fields_lookup (rec : SchemaType -> json -> bool)
    (o : list (string * json)) (fs : list (string * SchemaType))
    (k : string) (t : SchemaType) (v : json) :
  conforms_fields_with rec o fs = true ->
  field k fs = Some t -> field k o = Some v -> rec t v = true.
Proof.
  induction fs as [|[k0 t0] fs IH]; [discriminate|].
  cbn [conforms_fields_with field]. intros [Hhd Hc]%andb_prop Hk Hv.
  destruct (String.eqb k k0) eqn:Heq; [|by apply IH].
  apply String.eqb_eq in Heq. subst k0. injection Hk as ->.
  by rewrite Hv in Hhd.
Qed.

Lemma declared_only_weaken (kt : string * SchemaType)
    (fs : list (string * SchemaType)) (o : list (string * json)) :
  declared_only fs o = true -> declared_only (kt :: fs) o = true.
Proof.
  unfold declared_only. induction o as [|[k v] o IH]; [reflexivity|].
  cbn [forallb map existsb]. intros [Hk Ho]%andb_prop.
  apply andb_true_intro. split; [by rewrite Hk, orb_true_r|by apply IH].
Qed.

Lemma declared_only_or_id (fs : list (string * SchemaType))
    (o : list (string * json)) :
  declared_only fs o = true -> declared_or_id fs o = true.
Proof.
  unfold declared_only, declared_or_id.
  induction o as [|[k v] o IH]; [reflexivity|].
  cbn [forallb]. intros [Hk Ho]%andb_prop.
  apply andb_true_intro. split; [by rewrite Hk, orb_true_r|by apply IH].
Qed.

Lemma cast_key_typed (sub : nat -> ObjectId) (path : string)
    (o : list (string * json)) (k : string) (t : SchemaType) (x : json) :
  cast_typed sub t -> wf_type t = true ->
  fst (cast_key (cast sub) path o k t) = Some x ->
  snd (cast_key (cast sub) path o k t) = [] ->
  has_type t x = true.
Proof.
  intros Hok Hwf. unfold cast_key. destruct (field k o) as [v|].
  - destruct (cast sub t (join_path path k) v) as [r e] eqn:Hc.
    cbn [fst snd]. intros -> ->. exact (Hok _ _ _ Hwf Hc).
  - cbn [fst snd]. intros Hd _. destruct t; try discriminate.
    by injection Hd as <-.
Qed.

Lemma cast_fields_typed (sub : nat -> ObjectId) (path : string)
    (o : list (string * json)) (fs : list (string * SchemaType)) :
  Forall (fun kt => cast_typed sub (snd kt)) fs ->
  distinct (map fst fs) = true ->
  forallb (fun '(_, t') => wf_type t') fs = true ->
  snd (cast_fields_with (cast sub) path o fs) = [] ->
  declared_only fs (fst (cast_fields_with (cast sub) path o fs)) = true
  /\ conforms_fields_with has_type
       (fst (cast_fields_with (cast sub) path o fs)) fs = true.
Proof.
  induction fs as [|[k0 t0] fs IH]; intros HF Hd Hwf He.
  - split; reflexivity.
  - apply Forall_cons_1 in HF as [Hok0 HF].
    cbn [map fst distinct] in Hd. apply andb_prop in Hd as [Hk0 Hd].
    apply negb_true_iff in Hk0.
    cbn [forallb] in Hwf. apply andb_prop in Hwf as [Hwf0 Hwf].
    rewrite cast_fields_with_cons in *. cbn [fst snd] in *.
    apply app_eq_nil in He as [He0 He].
    destruct (IH HF Hd Hwf He) as [IHd IHc].
    pose proof (cast_fields_absent_key (cast sub) path o fs k0 Hk0) as Habs.
    destruct (fst (cast_key (cast sub) path o k0 t0)) as [x|] eqn:Hx.
    + pose proof (cast_key_typed sub path o k0 t0 x Hok0 Hwf0 Hx He0) as Ht.
      split.
      * unfold declared_only. cbn [forallb map fst existsb].
        rewrite String.eqb_refl. cbn [orb andb].
        by apply (declared_only_weaken (k0, t0)).
      * cbn [conforms_fields_with field]. rewrite String.eqb_refl, Ht.
        cbn [andb]. by rewrite conforms_fields_skip.
    + split; [by apply declared_only_weaken|].
      cbn [conforms_fields_with]. by rewrite Habs.
Qed.

Lemma cast_elements_typed (sub : nat -> ObjectId) (path : string)
    (fs : list (string * SchemaType)) (l : list json) :
  Forall (fun kt => cast_typed sub (snd kt)) fs ->
  distinct ("_id" :: "__v" :: map fst fs) = true ->
  forallb (fun '(_, t') => wf_type t') fs = true ->
  forall i,
    snd (cast_elements_with sub
           (fun p o => cast_fields_with (cast sub) p o fs) path i l) = [] ->
    has_type (SDocArray fs)
      (JArr (fst (cast_elements_with sub
                    (fun p o => cast_fields_with (cast sub) p o fs) path i l)))
    = true.
Proof.
  intros HF Hd Hwf. destruct (wf_fields_inv fs Hd) as (Hid & _ & Hd').
  cbn [has_type].
  induction l as [|v l IH]; intros i He; [reflexivity|].
  cbn [cast_elements_with] in *.
  destruct (cast_elements_with sub _ path (S i) l) as [rs es] eqn:Hrest.
  specialize (IH (S i)). rewrite Hrest in IH. cbn [fst snd] in IH.
  destruct v as [|b|n|s|a|o]; cbn [fst snd app] in *; try discriminate He.
  - cbn [forallb]. by apply IH.
  - apply app_eq_nil in He as [_ He].
    cbn [forallb]. rewrite conforms_fields_skip by done.
    rewrite conforms_fields_nil. unfold declared_or_id at 1.
    cbn [forallb String.eqb Ascii.eqb Bool.eqb orb andb]. by apply IH.
  - destruct (element_id (sub i) (join_path path (index_string i)) o)
      as [id eid].
    pose proof (cast_fields_typed sub (join_path path (index_string i)) o fs
                  HF Hd' Hwf) as Hty.
    destruct (cast_fields_with (cast sub) _ o fs) as [fo eo].
    cbn [fst snd] in *.
    apply app_eq_nil in He as [[-> ->]%app_eq_nil He].
    destruct (Hty eq_refl) as [Hdo Hco].
    apply declared_only_or_id in Hdo.
    cbn [forallb]. rewrite (IH He), andb_true_r.
    destruct id as [x|]; [|by rewrite Hdo, Hco].
    rewrite conforms_fields_skip by done. rewrite Hco.
    unfold declared_or_id in *. cbn [forallb]. by rewrite Hdo.
Qed.

(** Every schema type casts, when it casts without error, to a value of
    the type. *)
Lemma cast_is_typed (sub : nat -> ObjectId) (t : SchemaType) : cast_typed sub t.
Proof.
  induction t as [| |fs IH|fs IH] using SchemaType_nested_ind;
    intros path v w Hwf Hc.
  - destruct v as [|b|n|s|a|o]; cbn in Hc; try discriminate;
      try (by injection Hc as <-).
    destruct (field "_id" o) as [[| | |s| |]|]; try discriminate.
    destruct (String.eqb s ""); [discriminate|]. by injection Hc as <-.
  - cbn [cast] in Hc. unfold castNumber in Hc.
    destruct (match v with
              | JObj o => match field "_id" o with Some w0 => w0 | None => v end
              | _ => v
              end) as [|b|n|s|a|o]; try discriminate;
      try (by injection Hc as <-).
    + destruct (PrimFloat.is_nan n); [discriminate|by injection Hc as <-].
    + destruct (String.eqb s ""); [by injection Hc as <-|].
      destruct (Number_of_string s) as [n|]; [|discriminate].
      destruct (PrimFloat.is_nan n); [discriminate|by injection Hc as <-].
  - destruct v as [| | | | |o]; try discriminate.
    { by injection Hc as <-. }
    cbn [wf_type] in Hwf. apply andb_prop in Hwf as [Hd Hwf].
    destruct (wf_fields_inv fs Hd) as (_ & _ & Hd').
    cbn [cast] in Hc.
    pose proof (cast_fields_typed sub path o fs IH Hd' Hwf) as Hty.
    destruct (cast_fields_with (cast sub) path o fs) as [out errs].
    cbn [fst snd] in Hty. injection Hc as Hm ->.
    destruct (Hty eq_refl) as [Hdo Hco].
    destruct out as [|kv out]; [discriminate|]. injection Hm as <-.
    cbn [has_type]. by rewrite Hdo, Hco.
  - cbn [wf_type] in Hwf. apply andb_prop in Hwf as [Hd Hwf].
    assert (Hgen : forall elems,
      (let '(out, errs) :=
         cast_elements_with sub
           (fun p o => cast_fields_with (cast sub) p o fs) path 0 elems in
       (Some (JArr out), errs)) = (Some w, []) ->
      has_type (SDocArray fs) w = true).
    { intros elems Hel.
      pose proof (cast_elements_typed sub path fs elems IH Hd Hwf 0) as Hty.
      destruct (cast_elements_with sub _ path 0 elems) as [out errs].
      cbn [fst snd] in Hty. injection Hel as <- ->. by apply Hty. }
    destruct v; cbn [cast] in Hc; try (by apply Hgen in Hc).
    by injection Hc as <-.
Qed.

Lemma field_In_keys {A : Type} (k : string) (l : list (string * A)) :
  In k (map fst l) -> exists v, field k l = Some v.
Proof.
  induction l as [|[k0 v0] l IH]; [intros []|].
  cbn [map fst In field]. intros Hin.
  destruct (String.eqb k k0) eqn:Hk; [by eexists|].
  destruct Hin as [->|Hin]; [by rewrite String.eqb_refl in Hk|by apply IH].
Qed.

(** The record a create stores is a record of its model. *)
Lemma new_record_ok (e : Entity) (b : list (string * json)) (env : Env) :
  doc_errors (new_ (model_of e) (constructor_arg e b) env) = [] ->
  record_ok (model_of e) (oid_hex (new_id env))
    (toObject (new_ (model_of e) (constructor_arg e b) env)).
Proof.
  intros He. rewrite new_errors_eq in He.
  destruct (schema_wf e) as [Hd Hwf].
  destruct (wf_fields_inv _ Hd) as (Hid & Hv & Hd').
  destruct (cast_fields_typed (sub_id env) ""
              (defined (constructor_arg e b)) (schema (model_of e)))
    as [Hdo Hco]; try done.
  { apply Forall_forall. intros kt _. apply cast_is_typed. }
  eexists. split; [reflexivity|]. rewrite new_id_eq, new_fields_eq.
  unfold cast_fields.
  set (fields := fst (cast_fields_with (cast (sub_id env)) ""
                        (defined (constructor_arg e b)) (schema (model_of e))))
    in *.
  split; [reflexivity|]. split.
  - cbn [field String.eqb Ascii.eqb Bool.eqb]. rewrite field_app.
    unfold fields.
    rewrite (cast_fields_absent_key _ _ _ _ "__v" Hv). reflexivity.
  - intros k v. cbn [field].
    destruct (String.eqb k "_id") eqn:Hk; [apply String.eqb_eq in Hk; auto|].
    rewrite field_app. destruct (field k fields) as [w|] eqn:Hw.
    + intros [= <-]. right. right.
      destruct (field_In_keys k (schema (model_of e))) as [t Ht].
      { by apply (cast_fields_keys _ _ _ _ _ _ Hw). }
      exists t. split; [exact Ht|].
      by apply (conforms_fields_lookup has_type fields _ k t w Hco).
    + cbn [field]. destruct (String.eqb k "__v") eqn:Hkv; [|discriminate].
      apply String.eqb_eq in Hkv. auto.
Qed.

(** ** Sequences of requests *)

Lemma app_snd_cases (r : Route) (req : Request) (env : Env) (db : Db) :
  snd (app r req env db) = db
  \/ exists e, creates r e = true /\ app r req env db = create e req env db.
Proof.
  destruct r; cbn [app].
  - by left.
  - right. by exists OrderE.
  - left. change get_order with (get_by_id OrderE).
    by rewrite get_by_id_unfold, get_with_readonly.
  - right. by exists CartE.
  - left. change get_cart with (get_by_id CartE).
    by rewrite get_by_id_unfold, get_with_readonly.
  - right. by exists CheckoutE.
  - left. change get_checkout with (get_by_id CheckoutE).
    by rewrite get_by_id_unfold, get_with_readonly.
Qed.

Lemma app_preserves (r : Route) (req : Request) (env : Env) (db : Db)
    (c id : string) (record : json) :
  collection c db !! id = Some record ->
  collection c (snd (app r req env db)) !! id = Some record.
Proof.
  intros Hr. destruct (app_snd_cases r req env db) as [->|(e & _ & ->)]; [done|].
  rewrite create_unfold. by apply create_with_preserves.
Qed.

Lemma serve_cons (r : Route) (req : Request) (env : Env) (calls : list Call)
    (db : Db) :
  serve ((r, req, env) :: calls) db = serve calls (snd (app r req env db)).
Proof. reflexivity. Qed.

Lemma serve_preserves (calls : list Call) (db : Db) (c id : string)
    (record : json) :
  collection c db !! id = Some record ->
  collection c (serve calls db) !! id = Some record.
Proof.
  revert db. induction calls as [|[[r req] env] calls IH]; intros db Hr; [done|].
  rewrite serve_cons. apply IH. by apply app_preserves.
Qed.

Lemma create_accepts_true (e : Entity) (req : Request) (env : Env) (db : Db) :
  create_accepts e req env db = true ->
  doc_errors (new_ (model_of e) (constructor_arg e (body req)) env) = []
  /\ fault env = None
  /\ collection (collectionName (model_of e)) db !! oid_hex (new_id env) = None.
Proof.
  unfold create_accepts.
  destruct (doc_errors _); [|discriminate]. destruct (fault env); [discriminate|].
  by destruct (collection (collectionName (model_of e)) db !! _).
Qed.

Lemma create_status_accepts (e : Entity) (req : Request) (env : Env) (db : Db) :
  status (fst (create e req env db)) = 201 -> create_accepts e req env db = true.
Proof.
  rewrite create_unfold. unfold create_with, save, create_accepts.
  destruct (doc_errors _); [|discriminate]. destruct (fault env); [discriminate|].
  rewrite new_id_eq.
  by destruct (collection (collectionName (model_of e)) db !! _).
Qed.

(** X6. Read your write, durably: when a create answers 201 there is one
    record, carrying the generated identifier as its [_id], that every read
    of the same entity by that identifier returns with status 200 on a
    store that answers, directly after the create and after any sequence of
    further requests. *)
Theorem read_your_write (e : Entity) (req : Request) (env : Env) (db : Db) :
  status (fst (create e req env db)) = 201 ->
  exists record,
    prop "_id" record = Some (JStr (oid_hex (new_id env)))
    /\ forall (later : list Call) (req' : Request) (env' : Env),
         params_id req' = oid_hex (new_id env) ->
         fault env' = None ->
         get_by_id e req' env' (serve later (snd (create e req env db))) =
           (status_json 200 record, serve later (snd (create e req env db))).
Proof.
  intros Hst. apply create_status_accepts in Hst.
  exists (toObject (new_ (model_of e) (constructor_arg e (body req)) env)).
  split.
  - unfold toObject. cbn [prop field String.eqb Ascii.eqb Bool.eqb].
    by rewrite new_id_eq.
  - intros later req' env' Hid Hf.
    rewrite get_by_id_unfold. unfold get_with.
    rewrite (findById_Ok _ _ (oid_hex (new_id env)));
      [|by rewrite Hid, castObjectId_oid|done].
    rewrite (serve_preserves later _ _ _
               (toObject (new_ (model_of e) (constructor_arg e (body req)) env)));
      [done|].
    rewrite create_snd_eq, Hst, collection_insert_eq. apply lookup_insert_eq.
Qed.

(** ** The store invariant *)

Lemma store_ok_empty : store_ok ∅.
Proof.
  intros e id r. unfold collection. rewrite lookup_empty. cbn.
  by rewrite lookup_empty.
Qed.

Lemma create_store_ok (e : Entity) (req : Request) (env : Env) (db : Db) :
  store_ok db -> store_ok (snd (create e req env db)).
Proof.
  intros Hok. rewrite create_snd_eq.
  destruct (create_accepts e req env db) eqn:Hacc; [|done].
  apply create_accepts_true in Hacc as (He & _ & _).
  intros e' id r. destruct (entity_eq_or_ne e e') as [<-|Hne].
  - rewrite collection_insert_eq.
    destruct (decide (oid_hex (new_id env) = id)) as [<-|Hid].
    + rewrite lookup_insert_eq. intros [= <-]. by apply new_record_ok.
    + rewrite lookup_insert_ne by done. apply Hok.
  - rewrite collection_insert_ne by (by apply model_collections_distinct).
    apply Hok.
Qed.

(** X7. Every route keeps the store well-formed: if every record of the
    three collections binds [_id] to the identifier it is stored under,
    [__v] to 0, and besides these only paths its schema declares, each to a
    value of the declared type (so never a name from outside the
    allow-list, never an undeclared key at any depth, and never an object
    where a string or a number is declared), then the same holds after the
    request. *)
Theorem routes_keep_store_ok (r : Route) (req : Request) (env : Env) (db : Db) :
  store_ok db -> store_ok (snd (app r req env db)).
Proof.
  intros Hok. destruct (app_snd_cases r req env db) as [->|(e & _ & ->)]; [done|].
  by apply create_store_ok.
Qed.

Lemma serve_store_ok (calls : list Call) (db : Db) :
  store_ok db -> store_ok (serve calls db).
Proof.
  revert db. induction calls as [|[[r req] env] calls IH]; intros db Hok; [done|].
  rewrite serve_cons. apply IH.
  destruct (app_snd_cases r req env db) as [->|(e & _ & ->)]; [done|].
  by apply create_store_ok.
Qed.

(** X8. Starting from an empty database, after any sequence of requests,
    a read that answers 200 returns a well-formed record of its entity
    stored under the identifier the request names: the record binds [_id]
    to the canonical form of that identifier, [__v] to 0, and besides these
    only paths the schema declares, each to a value of its type. *)
Theorem read_returns_record_of_model (calls : list Call) (e : Entity)
    (req : Request) (env : Env) (record : json) (db' : Db) :
  get_by_id e req env (serve calls ∅) = (status_json 200 record, db') ->
  exists h,
    castObjectId (params_id req) = Some h
    /\ record_ok (model_of e) h record.
Proof.
  rewrite get_by_id_unfold. unfold get_with, findById.
  destruct (castObjectId (params_id req)) as [h|]; [|discriminate].
  destruct (fault env); [discriminate|].
  destruct (collection _ (serve calls ∅) !! h) as [r|] eqn:Hr; [|discriminate].
  intros [= <- _]. exists h. split; [reflexivity|].
  by apply (serve_store_ok calls ∅ store_ok_empty e).
Qed.

Lemma app_size (r : Route) (req : Request) (env : Env) (db : Db) (e : Entity) :
  size (collection (collectionName (model_of e)) (snd (app r req env db))) <=
  size (collection (collectionName (model_of e)) db)
  + (if creates r e then 1 else 0).
Proof.
  destruct (app_snd_cases r req env db) as [->|(e' & Hcr & ->)]; [lia|].
  rewrite create_snd_eq.
  destruct (create_accepts e' req env db) eqn:Hacc; [|lia].
  apply create_accepts_true in Hacc as (_ & _ & Hfresh).
  destruct (entity_eq_or_ne e' e) as [<-|Hne].
  - rewrite collection_insert_eq, Hcr.
    rewrite map_size_insert_None by done. lia.
  - rewrite collection_insert_ne by (by apply model_collections_distinct). lia.
Qed.

Lemma serve_size (calls : list Call) (db : Db) (e : Entity) :
  size (collection (collectionName (model_of e)) (serve calls db)) <=
  size (collection (collectionName (model_of e)) db)
  + length (List.filter (fun '(r, _, _) => creates r e) calls).
Proof.
  revert db. induction calls as [|[[r req] env] calls IH]; intros db.
  - cbn. lia.
  - rewrite serve_cons. specialize (IH (snd (app r req env db))).
    pose proof (app_size r req env db e) as Hs.
    cbn [List.filter]. destruct (creates r e); cbn [length]; lia.
Qed.

(** X9. Starting from an empty database, after any sequence of requests,
    an entity's collection holds at most as many records as there were
    create requests for that entity: reads, the health probe and creates of
    other entities add none, and a create adds at most one. *)
Theorem records_bounded_by_creates (calls : list Call) (e : Entity) :
  size (collection (collectionName (model_of e)) (serve calls ∅)) <=
  length (List.filter (fun '(r, _, _) => creates r e) calls).
Proof.
  pose proof (serve_size calls ∅ e) as Hs.
  assert (Hz : size (collection (collectionName (model_of e)) (∅ : Db)) = 0).
  { unfold collection. rewrite lookup_empty. cbn. apply map_size_empty. }
  lia.
Qed.

(** ** Arrays of line items *)

Lemma cast_elements_length (sub : nat -> ObjectId)
    (fields_of : string -> list (string * json) ->
                 list (string * json) * list CastError)
    (path : string) (l : list json) (i : nat) :
  length (fst (cast_elements_with sub fields_of path i l)) = length l.
Proof.
  revert i. induction l as [|v l IH]; intros i; [reflexivity|].
  cbn [cast_elements_with]. specialize (IH (S i)).
  destruct (cast_elements_with sub fields_of path (S i) l) as [rs es].
  destruct (match v with JNull => _ | _ => _ end) as [r e].
  cbn [fst length] in *. by rewrite IH.
Qed.

(** X11. No line item is lost or added: when a create answers 201 and its
    body binds an array-typed path of the schema ([items] of a cart, [cart]
    of a checkout) to an array, the record stored under the new identifier
    holds at that path an array of exactly the same length. *)
Theorem create_keeps_array_length (e : Entity) (req : Request) (env : Env)
    (db : Db) (k : string) (fs : list (string * SchemaType)) (l : list json) :
  field k (schema (model_of e)) = Some (SDocArray fs) ->
  field k (body req) = Some (JArr l) ->
  status (fst (create e req env db)) = 201 ->
  exists record out,
    collection (collectionName (model_of e)) (snd (create e req env db))
      !! oid_hex (new_id env) = Some record
    /\ prop k record = Some (JArr out)
    /\ length out = length l.
Proof.
  intros Hk Hb Hst. apply create_status_accepts in Hst.
  destruct (schema_wf e) as [Hd _].
  destruct (wf_fields_inv _ Hd) as (Hid & Hv & Hd').
  exists (toObject (new_ (model_of e) (constructor_arg e (body req)) env)).
  exists (fst (cast_elements_with (sub_id env)
                 (fun p o => cast_fields_with (cast (sub_id env)) p o fs)
                 (join_path "" k) 0 l)).
  split; [|split].
  - rewrite create_snd_eq, Hst, collection_insert_eq. apply lookup_insert_eq.
  - unfold toObject. cbn [prop field].
    rewrite (declared_key_not _ k "_id" _ Hk Hid), field_app.
    rewrite new_fields_eq, new_reads_body. unfold cast_fields.
    rewrite (cast_fields_lookup _ _ _ _ k (SDocArray fs) Hd' Hk).
    unfold cast_key. rewrite Hb. cbn [cast].
    by destruct (cast_elements_with (sub_id env) _ (join_path "" k) 0 l).
  - apply cast_elements_length.
Qed.

End Coverage.

(** * The further properties at concrete requests *)


Lemma get_by_id_storage_failure_witness :
  castObjectId "65f0c2a1b3d4e5f60718293a" = Some "65f0c2a1b3d4e5f60718293a"
  /\ fault env_down = Some "connect ECONNREFUSED 10.0.0.7:27017"
  /\ get_by_id CartE (mkRequest "65f0c2a1b3d4e5f60718293a" []) env_down ∅ =
       (status_json 500
          (JObj [("error", JStr "connect ECONNREFUSED 10.0.0.7:27017")]), ∅).
Proof.
  split; [reflexivity|]. split; [reflexivity|].
  exact (get_by_id_storage_failure CartE
           (mkRequest "65f0c2a1b3d4e5f60718293a" [])
           "65f0c2a1b3d4e5f60718293a" env_down ∅
           "connect ECONNREFUSED 10.0.0.7:27017" eq_refl eq_refl).
Defined.

Lemma create_leaves_other_reads_witness :
  (OrderE <> CartE
   \/ castObjectId "65f0c2a1b3d4e5f60718293a" <> Some (oid_hex (new_id env_ok)))
  /\ fst (get_by_id CartE (mkRequest "65f0c2a1b3d4e5f60718293a" []) env_ok
            (snd (create OrderE (mkRequest "" sample_order) env_ok ∅))) =
     fst (get_by_id CartE (mkRequest "65f0c2a1b3d4e5f60718293a" []) env_ok ∅).
Proof.
  assert (Hne : OrderE <> CartE
                \/ castObjectId (params_id (mkRequest "65f0c2a1b3d4e5f60718293a" []))
                   <> Some (oid_hex (new_id env_ok))) by (left; discriminate).
  split; [exact Hne|].
  exact (create_leaves_other_reads OrderE CartE (mkRequest "" sample_order)
           (mkRequest "65f0c2a1b3d4e5f60718293a" []) env_ok env_ok ∅ Hne).
Defined.

(** Two orders under different identifiers, on a store that already holds
    a cart. *)
Lemma creates_commute_witness :
  (OrderE <> OrderE \/ oid_hex (new_id env_ok_b) <> oid_hex (new_id env_ok))
  /\ snd (create OrderE (mkRequest "" sample_order) env_ok
            (snd (create OrderE (mkRequest "" sample_order_with_extras) env_ok_b
                    (snd (create CartE (mkRequest "" sample_cart) env_ok ∅))))) =
     snd (create OrderE (mkRequest "" sample_order_with_extras) env_ok_b
            (snd (create OrderE (mkRequest "" sample_order) env_ok
                    (snd (create CartE (mkRequest "" sample_cart) env_ok ∅))))).
Proof.
  assert (Hne : OrderE <> OrderE
                \/ oid_hex (new_id env_ok_b) <> oid_hex (new_id env_ok))
    by (right; discriminate).
  split; [exact Hne|].
  exact (proj2 (proj2 (creates_commute OrderE OrderE
           (mkRequest "" sample_order_with_extras) (mkRequest "" sample_order)
           env_ok_b env_ok _ Hne))).
Defined.

Lemma read_your_write_witness :
  status (fst (create CartE (mkRequest "" sample_cart) env_ok ∅)) = 201
  /\ exists record,
       prop "_id" record = Some (JStr "65f0c2a1b3d4e5f60718293a")
       /\ get_by_id CartE (mkRequest "65f0c2a1b3d4e5f60718293a" []) env_ok
            (serve [(POST_order, mkRequest "" sample_order, env_ok);
                    (GET_health, mkRequest "" [], env_down);
                    (POST_cart, mkRequest "" [], env_ok)]
               (snd (create CartE (mkRequest "" sample_cart) env_ok ∅))) =
          (status_json 200 record,
           serve [(POST_order, mkRequest "" sample_order, env_ok);
                  (GET_health, mkRequest "" [], env_down);
                  (POST_cart, mkRequest "" [], env_ok)]
             (snd (create CartE (mkRequest "" sample_cart) env_ok ∅))).
Proof.
  assert (Hst : status (fst (create CartE (mkRequest "" sample_cart) env_ok ∅))
                = 201) by reflexivity.
  split; [exact Hst|].
  destruct (read_your_write CartE (mkRequest "" sample_cart) env_ok ∅ Hst)
    as (record & Hid & Hread).
  exists record. split; [exact Hid|].
  exact (Hread _ (mkRequest "65f0c2a1b3d4e5f60718293a" []) env_ok
           eq_refl eq_refl).
Defined.

Lemma routes_keep_store_ok_witness :
  store_ok ∅
  /\ store_ok (snd (app POST_cart (mkRequest "" sample_cart) env_ok ∅)).
Proof.
  split; [exact store_ok_empty|].
  exact (routes_keep_store_ok POST_cart (mkRequest "" sample_cart) env_ok ∅
           store_ok_empty).
Defined.

Lemma read_returns_record_of_model_witness :
  get_by_id OrderE (mkRequest "65F0C2A1B3D4E5F60718293A" []) env_ok
    (serve [(POST_order, mkRequest "" sample_order_with_extras, env_ok)] ∅) =
    (status_json 200 stored_sample_order,
     serve [(POST_order, mkRequest "" sample_order_with_extras, env_ok)] ∅)
  /\ exists h,
       castObjectId "65F0C2A1B3D4E5F60718293A" = Some h
       /\ record_ok Order h stored_sample_order.
Proof.
  assert (Hget :
    get_by_id OrderE (mkRequest "65F0C2A1B3D4E5F60718293A" []) env_ok
      (serve [(POST_order, mkRequest "" sample_order_with_extras, env_ok)] ∅) =
      (status_json 200 stored_sample_order,
       serve [(POST_order, mkRequest "" sample_order_with_extras, env_ok)] ∅))
    by (vm_compute; reflexivity).
  split; [exact Hget|].
  exact (read_returns_record_of_model _ OrderE _ _ _ _ Hget).
Defined.

Lemma create_keeps_array_length_witness :
  field "items" (schema (model_of CartE)) = Some (SDocArray lineItemSchema)
  /\ field "items" sample_cart =
       Some (JArr [JObj [("name", JStr "tomato"); ("quantity", JNum 2);
                         ("totalCost", JNum 40)]])
  /\ status (fst (create CartE (mkRequest "" sample_cart) env_ok ∅)) = 201
  /\ exists record out,
       collection "carts" (snd (create CartE (mkRequest "" sample_cart) env_ok ∅))
         !! "65f0c2a1b3d4e5f60718293a" = Some record
       /\ prop "items" record = Some (JArr out)
       /\ length out = 1.
Proof.
  split; [reflexivity|]. split; [reflexivity|]. split; [reflexivity|].
  exact (create_keeps_array_length CartE (mkRequest "" sample_cart) env_ok ∅
           "items" lineItemSchema _ eq_refl eq_refl eq_refl).
Defined.
